(** * Backfill scripts for a title catalogue

    A shallow embedding of [backfill_keywords.py] and
    [backfill_themes_overview.py].  Both scripts read rows of the table
    [titles] that miss a column, ask an outside service for the value, write
    it back row by row and count what happened.

    What is kept of the Python code:
    - every call to an outside service (the catalogue's HTTP interface, the
      text model, the table, [time.sleep]) is an event of a log, in program
      order, and its answer comes from an oracle of the enclosing section;
    - exceptions are values of a small monad, caught where the source has
      [try]/[except];
    - the counters of the statistics dictionary are fields of a record.

    What is left out: the lines written with [print], the credentials sent
    with a request, and floating point (a delay and a rate are rationals).
    Rows and decoded answers are typed as the annotations of the source type
    them ([List[str]], [int], [str]): a row has every selected column, with
    a number for its popularity, and a keyword of the catalogue that has a
    name has a string for it.  Within these types an answer may still lack
    any member, hold a value of another sort under it, or not come at all,
    and the table may refuse any update.

    The loop of the keywords script formats the popularity of a row into
    its progress line, outside every [try].  [Keywords] models that loop
    over rows that have a popularity; [KeywordsProgress] models it with the
    progress line, over rows as the select returns them, whose popularity
    may be NULL. *)

From Stdlib Require Import ZArith QArith Lia List Ascii String.
From stdpp Require Import base option list strings gmap pretty.

Local Close Scope Q_scope.
Local Open Scope string_scope.
Local Open Scope list_scope.

(** ** Python strings

    A [str] is a [string]; each [ascii] stands for one character, so the
    model covers the characters below U+0100 and [String.length] is [len]. *)

Module Py.

(** [str.isspace] on one character (below U+0100): TAB..CR, FS..US, space,
    NEL and the no-break space. *)
Definition isspace (c : ascii) : bool :=
  let n := N_of_ascii c in
  ((9 <=? n)%N && (n <=? 13)%N) || ((28 <=? n)%N && (n <=? 32)%N)
  || (n =? 133)%N || (n =? 160)%N.

Fixpoint lstrip (s : string) : string :=
  match s with
  | EmptyString => EmptyString
  | String c s' => if isspace c then lstrip s' else s
  end.

Definition rstrip (s : string) : string := String.rev (lstrip (String.rev s)).

(** [s.strip()] *)
Definition strip (s : string) : string := rstrip (lstrip s).

(** [s.split(sep)] for a separator of one character: never an empty list,
    adjacent separators give empty pieces. *)
Fixpoint split (sep : ascii) (s : string) : list string :=
  match s with
  | EmptyString => [EmptyString]
  | String c s' =>
      if Ascii.eqb c sep then EmptyString :: split sep s'
      else match split sep s' with
           | [] => [String c EmptyString]
           | w :: ws => String c w :: ws
           end
  end.

(** [sep.join(l)] *)
Fixpoint join (sep : string) (l : list string) : string :=
  match l with
  | [] => EmptyString
  | [w] => w
  | w :: ws => w ++ sep ++ join sep ws
  end.

(** Truth value of a [str] and of a list: non-empty. *)
Definition truthy_str (s : string) : bool :=
  match s with EmptyString => false | _ => true end.

Definition truthy_list {A} (l : list A) : bool :=
  match l with [] => false | _ => true end.

(** [str(n)] for an [int], as an f-string writes it. *)
Definition str_of_int (n : Z) : string := pretty n.

(** [c.lower()] on one character (below U+0100): the letters A..Z and the
    capital letters of Latin-1, U+00C0..U+00DE without the sign U+00D7. *)
Definition lower_char (c : ascii) : ascii :=
  let n := N_of_ascii c in
  if ((65 <=? n)%N && (n <=? 90)%N)
     || ((192 <=? n)%N && (n <=? 222)%N && negb (n =? 215)%N)
  then ascii_of_N (n + 32) else c.

(** Every character of [s] is white space. *)
Fixpoint all_space (s : string) : bool :=
  match s with
  | EmptyString => true
  | String c s' => isspace c && all_space s'
  end.

(** [s] does not begin with white space; [s] does not end with it. *)
Definition starts_clean (s : string) : Prop :=
  match s with
  | EmptyString => True
  | String c _ => isspace c = false
  end.

Definition ends_clean (s : string) : Prop := starts_clean (String.rev s).

(** [c in s] for a character [c]. *)
Fixpoint contains (c : ascii) (s : string) : bool :=
  match s with
  | EmptyString => false
  | String c' s' => Ascii.eqb c' c || contains c s'
  end.

(** [s.lower()] *)
Fixpoint lower (s : string) : string :=
  match s with
  | EmptyString => EmptyString
  | String c s' => String (lower_char c) (lower s')
  end.

End Py.

(** ** Rows of the table [titles] *)

Record row := Row {
  id : Z;
  title : string;
  kind : string;
  popularity : Q;
  overview : option string;
  genres : option (list string);
  keywords : option (list string);
  themes : option (list string)
}.

(** The dictionary handed to [.update({...})]: one column and its value. *)
Inductive assignment :=
| SetKeywords (v : list string)
| SetOverview (v : string)
| SetThemes (v : list string).

Definition assign (a : assignment) (r : row) : row :=
  match a with
  | SetKeywords v =>
      Row (id r) (title r) (kind r) (popularity r) (overview r) (genres r) (Some v) (themes r)
  | SetOverview v =>
      Row (id r) (title r) (kind r) (popularity r) (Some v) (genres r) (keywords r) (themes r)
  | SetThemes v =>
      Row (id r) (title r) (kind r) (popularity r) (overview r) (genres r) (keywords r) (Some v)
  end.

(** A row with one column blanked: what is left of it is what an update of
    that column must not touch. *)
Definition without_keywords (r : row) : row :=
  Row (id r) (title r) (kind r) (popularity r) (overview r) (genres r) None (themes r).

Definition without_overview (r : row) : row :=
  Row (id r) (title r) (kind r) (popularity r) None (genres r) (keywords r) (themes r).

Definition without_themes (r : row) : row :=
  Row (id r) (title r) (kind r) (popularity r) (overview r) (genres r) (keywords r) None.

(** A select as the query builder assembles it before [.execute()]. *)
Record query := Query {
  q_columns : string;
  q_is_null : string;
  q_limit : option Z;
  q_order : string;
  q_desc : bool
}.

(** ** Decoded answers of the catalogue *)

(** One object of a keyword list; [kw_name = None] is an object without the
    member [name]. *)
Record keyword := Keyword { kw_id : Z; kw_name : option string }.

(** ["name" in kw] *)
Definition has_name (kw : keyword) : bool :=
  match kw_name kw with Some _ => true | None => false end.

(** A decoded JSON value, as far as the two fetchers look into it. *)
#[warnings="-register-all"]
Inductive json :=
| JNull
| JNumber (z : Z)
| JString (s : string)
| JArray (items : list keyword)
| JObject (members : list (string * json)).

(** What [requests.get], [raise_for_status] and [response.json] leave: a
    [RequestException] (no connection, timeout, status 4xx/5xx, a body that
    is not JSON) or the decoded body. *)
Inductive http_answer :=
| HttpFailed
| HttpJson (data : json).

(** What [claude.messages.create] leaves: an error of the client or the
    texts of the content blocks of the message. *)
Inductive completion :=
| ModelFailed
| Message (content : list string).

(** ** Exceptions, events and the monad of the scripts *)

Inductive exn :=
| RequestException
| APIError
| KeyError
| TypeError
| AttributeError
| IndexError
| ZeroDivisionError.

(** [isinstance(e, requests.exceptions.RequestException)] *)
Definition is_request_exception (e : exn) : bool :=
  match e with RequestException => true | _ => false end.

Inductive event :=
| HttpGet (url : string)
| MessagesCreate (prompt : string)
| TableSelect (q : query)
| TableUpdate (a : assignment) (row_id : Z)
| Sleep (seconds : Q).

Record world := World {
  table : gmap Z row;
  log : list event
}.

Inductive result (A : Type) :=
| Return (a : A)
| Raise (e : exn).
Arguments Return {A} a.
Arguments Raise {A} e.

Definition M (A : Type) : Type := world -> result A * world.

Definition ret {A} (a : A) : M A := fun w => (Return a, w).

Definition raise {A} (e : exn) : M A := fun w => (Raise e, w).

Definition bind {A B} (m : M A) (k : A -> M B) : M B :=
  fun w =>
    match m w with
    | (Return a, w') => k a w'
    | (Raise e, w') => (Raise e, w')
    end.

(** [try: m except Exception as e: h e] *)
Definition try_except {A} (m : M A) (h : exn -> M A) : M A :=
  fun w =>
    match m w with
    | (Return a, w') => (Return a, w')
    | (Raise e, w') => h e w'
    end.

Definition emit (e : event) : M unit :=
  fun w => (Return tt, World (table w) (log w ++ [e])).

Definition get_table : M (gmap Z row) := fun w => (Return (table w), w).

Definition put_table (t : gmap Z row) : M unit :=
  fun w => (Return tt, World t (log w)).

Declare Scope py_scope.
Delimit Scope py_scope with py.
Notation "x <- m ;; k" := (bind m (fun x => k))
  (at level 100, m at next level, right associativity) : py_scope.
Notation "m ;; k" := (bind m (fun _ => k))
  (at level 100, right associativity) : py_scope.
Local Open Scope py_scope.

(** [time.sleep(d)] *)
Definition sleep (d : Q) : M unit := emit (Sleep d).

(** [for x in l: st = body st x], the statistics being the loop's state. *)
Fixpoint for_each {A S} (body : S -> A -> M S) (st : S) (l : list A) : M S :=
  match l with
  | [] => ret st
  | x :: l' => st' <- body st x ;; for_each body st' l'
  end.

(** The outcome of one pass over a row, as the counters of
    [backfill_keywords_batch] tell them apart: [success],
    [no_keywords_found], [api_error], [db_error]. *)
Inductive outcome :=
| Updated
| UpstreamEmpty
| UpstreamError
| PersistError.

(** The sleeps a pass of that outcome makes: one when it got as far as the
    update, none when it left the loop body early. *)
Definition paced (o : outcome) : nat :=
  match o with Updated | PersistError => 1 | _ => 0 end.

(** ** Events of a log, by sort *)

Definition is_sleep (e : event) : bool :=
  match e with Sleep _ => true | _ => false end.

Definition urls (l : list event) : list string :=
  omap (fun e => match e with HttpGet u => Some u | _ => None end) l.

Definition prompts (l : list event) : list string :=
  omap (fun e => match e with MessagesCreate p => Some p | _ => None end) l.

Definition updates (l : list event) : list (assignment * Z) :=
  omap (fun e => match e with TableUpdate a i => Some (a, i) | _ => None end) l.

Definition sleeps (l : list event) : nat := length (filter (fun e => is_sleep e = true) l).

(** ** Operations of Python values and of the outside services *)

Definition lift {A} (r : result A) : M A := fun w => (r, w).

Definition truthy_opt_str (o : option string) : bool :=
  match o with Some s => Py.truthy_str s | None => false end.

(** [data.get(key, default)]: only a dictionary has [get]; the first member
    of that name is the one a lookup finds. *)
Definition lookup_member (key : string) (members : list (string * json)) : option json :=
  snd <$> find (fun m => String.eqb (fst m) key) members.

Definition dict_get (data : json) (key : string) (dflt : json) : result json :=
  match data with
  | JObject members => Return (default dflt (lookup_member key members))
  | _ => Raise AttributeError
  end.

(** [[kw["name"] for kw in items]] over the objects of a list. *)
Fixpoint names_of_items (items : list keyword) : result (list string) :=
  match items with
  | [] => Return []
  | kw :: rest =>
      match kw_name kw with
      | None => Raise KeyError
      | Some n =>
          match names_of_items rest with
          | Return ns => Return (n :: ns)
          | Raise e => Raise e
          end
      end
  end.

(** [[kw["name"] for kw in v]] for any decoded value [v]: a list gives its
    objects, a dictionary its keys and a string its characters (neither can
    be indexed by ["name"]), and nothing else can be iterated. *)
Definition names (v : json) : result (list string) :=
  match v with
  | JArray items => names_of_items items
  | JObject [] => Return []
  | JObject (_ :: _) => Raise TypeError
  | JString EmptyString => Return []
  | JString (String _ _) => Raise TypeError
  | JNull | JNumber _ => Raise TypeError
  end.

(** [d.strip()] for the value of a member: only a string has [strip]. *)
Definition strip_value (v : json) : result string :=
  match v with
  | JString s => Return (Py.strip s)
  | _ => Raise AttributeError
  end.

(** [a / b] on integers, before [* 100]. *)
Definition truediv (a b : nat) : result Q :=
  match b with
  | O => Raise ZeroDivisionError
  | S _ => Return (Qmake (Z.of_nat a) (Pos.of_nat b))
  end.

Section Services.

(** The catalogue: the answer to a GET of a URL. *)
Variable tmdb : string -> http_answer.

(** The table: whether an update of a row is refused, and the rows a select
    returns from a given state of the table. *)
Variable execute_update_fails : assignment -> Z -> bool.
Variable execute_select : gmap Z row -> query -> result (list row).

(** [requests.get(url, ...)], [raise_for_status()], [response.json()] *)
Definition http_get_json (url : string) : M json :=
  emit (HttpGet url) ;;
  match tmdb url with
  | HttpFailed => raise RequestException
  | HttpJson data => ret data
  end.

(** [supabase.table("titles").update(a).eq("id", title_id).execute()] *)
Definition execute_update (a : assignment) (title_id : Z) : M unit :=
  emit (TableUpdate a title_id) ;;
  if execute_update_fails a title_id then raise APIError
  else t <- get_table ;; put_table (alter (assign a) title_id t).

(** [query.execute().data] of a select *)
Definition execute_query (q : query) : M (list row) :=
  emit (TableSelect q) ;;
  t <- get_table ;;
  lift (execute_select t q).

End Services.

(** [if limit: query = query.limit(limit)]: [None] and [0] set no limit. *)
Definition limit_clause (limit : option Z) : option Z :=
  match limit with
  | Some n => if (n =? 0)%Z then None else Some n
  | None => None
  end.

(** The rows a failed or answered select leaves its caller, whose [except]
    turns a failure into no rows. *)
Definition rows_or_empty (r : result (list row)) : list row :=
  match r with
  | Return rows => rows
  | Raise _ => []
  end.

(** * backfill_keywords.py *)

Module Keywords.

(** The select that [get_titles_missing_keywords] builds. *)
Definition keywords_query (limit : option Z) : query :=
  Query "id, title, kind, popularity" "keywords" (limit_clause limit) "popularity" true.

(** [RATE_LIMIT_DELAY = 0.25] *)
Definition RATE_LIMIT_DELAY : Q := Qmake 1 4.

(** The statistics dictionary of [backfill_keywords_batch]. *)
Record stats := Stats {
  total : nat;
  success : nat;
  no_keywords_found : nat;
  api_error : nat;
  db_error : nat
}.

Definition incr_success (s : stats) : stats :=
  Stats (total s) (S (success s)) (no_keywords_found s) (api_error s) (db_error s).
Definition incr_no_keywords_found (s : stats) : stats :=
  Stats (total s) (success s) (S (no_keywords_found s)) (api_error s) (db_error s).
Definition incr_api_error (s : stats) : stats :=
  Stats (total s) (success s) (no_keywords_found s) (S (api_error s)) (db_error s).
Definition incr_db_error (s : stats) : stats :=
  Stats (total s) (success s) (no_keywords_found s) (api_error s) (S (db_error s)).

(** The four counters of outcomes, added up. *)
Definition outcomes (s : stats) : nat :=
  success s + no_keywords_found s + api_error s + db_error s.

(** The address [fetch_tmdb_keywords] asks for. *)
Definition keywords_url (tmdb_id : Z) (kind : string) : string :=
  if String.eqb kind "movie"
  then "https://api.themoviedb.org/3/movie/" ++ Py.str_of_int tmdb_id ++ "/keywords"
  else "https://api.themoviedb.org/3/tv/" ++ Py.str_of_int tmdb_id ++ "/keywords".

(** [[kw["name"] for kw in data.get(key, [])]] *)
Definition names_under (key : string) (data : json) : result (list string) :=
  match dict_get data key (JArray []) with
  | Return v => names v
  | Raise e => Raise e
  end.

(** [return keywords if keywords else None] *)
Definition some_if_any (keywords : list string) : option (list string) :=
  if Py.truthy_list keywords then Some keywords else None.

(** What a dictionary with the given members lists under [key]: the names
    when there are some, [None] when the key is missing, the list is empty
    or the value cannot be read as a list of objects with names. *)
Definition listed (key : string) (members : list (string * json)) : option (list string) :=
  match lookup_member key members with
  | Some v =>
      match names v with
      | Return keywords => some_if_any keywords
      | Raise _ => None
      end
  | None => None
  end.

(** The lines of [fetch_tmdb_keywords] between [data = response.json()]
    and [return]: the member read depends on [kind]. *)
Definition extract_keywords (kind : string) (data : json) : result (option (list string)) :=
  match (if String.eqb kind "movie"
         then names_under "keywords" data
         else names_under "results" data) with
  | Return keywords => Return (some_if_any keywords)
  | Raise e => Raise e
  end.

Section Script.

Variable tmdb : string -> http_answer.
Variable execute_update_fails : assignment -> Z -> bool.
Variable execute_select : gmap Z row -> query -> result (list row).

(** [TMDB_API_KEY], [SUPABASE_URL], [SUPABASE_KEY] as [os.getenv] left
    them. *)
Variables TMDB_API_KEY SUPABASE_URL SUPABASE_KEY : option string.

Definition fetch_tmdb_keywords (tmdb_id : Z) (kind : string) : M (option (list string)) :=
  try_except
    (data <- http_get_json tmdb (keywords_url tmdb_id kind) ;;
     lift (extract_keywords kind data))
    (fun e =>
       if is_request_exception e then ret None   (* except RequestException *)
       else ret None).                           (* except Exception *)

Definition update_keywords_in_db (title_id : Z) (keywords : list string) : M bool :=
  try_except
    (execute_update execute_update_fails (SetKeywords keywords) title_id ;;
     ret true)
    (fun _ => ret false).

Definition get_titles_missing_keywords (limit : option Z) : M (list row) :=
  try_except
    (execute_query execute_select
       (Query "id, title, kind, popularity" "keywords" (limit_clause limit)
              "popularity" true))
    (fun _ => ret []).

(** The body of the loop of [backfill_keywords_batch]; a [continue]
    leaves the body at once, before the sleep at its end. *)
Definition process_title (dry_run : bool) (st : stats) (t : row) : M stats :=
  keywords <- fetch_tmdb_keywords (id t) (kind t) ;;
  match keywords with
  | None => ret (incr_api_error st)                    (* continue *)
  | Some [] => ret (incr_no_keywords_found st)         (* continue *)
  | Some keywords =>
      st' <- (if negb dry_run
              then ok <- update_keywords_in_db (id t) keywords ;;
                   ret (if ok : bool then incr_success st else incr_db_error st)
              else ret (incr_success st)) ;;
      sleep RATE_LIMIT_DELAY ;;
      ret st'
  end.

Definition backfill_keywords_batch (titles : list row) (dry_run : bool) : M stats :=
  for_each (process_title dry_run) (Stats (length titles) 0 0 0 0) titles.

(** *** One pass of the loop, read off the answers of the services

    [fetched t] is what the fetch of [t] returns, [outcome_of] the
    counter the pass bumps, [events_of] the calls it makes and
    [table_after] what it leaves of the table.  [process_title_run]
    below shows that the loop body does exactly this. *)

Definition fetched (t : row) : option (list string) :=
  match tmdb (keywords_url (id t) (kind t)) with
  | HttpFailed => None
  | HttpJson data =>
      match extract_keywords (kind t) data with
      | Return r => r
      | Raise _ => None
      end
  end.

Definition outcome_of (dry_run : bool) (t : row) : outcome :=
  match fetched t with
  | None => UpstreamError
  | Some [] => UpstreamEmpty
  | Some kws =>
      if negb dry_run && execute_update_fails (SetKeywords kws) (id t)
      then PersistError else Updated
  end.

Definition count (o : outcome) (st : stats) : stats :=
  match o with
  | Updated => incr_success st
  | UpstreamEmpty => incr_no_keywords_found st
  | UpstreamError => incr_api_error st
  | PersistError => incr_db_error st
  end.

Definition events_of (dry_run : bool) (t : row) : list event :=
  HttpGet (keywords_url (id t) (kind t)) ::
  match fetched t with
  | None | Some [] => []
  | Some kws =>
      (if dry_run then [] else [TableUpdate (SetKeywords kws) (id t)])
      ++ [Sleep RATE_LIMIT_DELAY]
  end.

Definition table_after (dry_run : bool) (t : row) (tbl : gmap Z row) : gmap Z row :=
  match fetched t with
  | None | Some [] => tbl
  | Some kws =>
      if dry_run || execute_update_fails (SetKeywords kws) (id t) then tbl
      else alter (assign (SetKeywords kws)) (id t) tbl
  end.

(** Rows whose fetch gives a list to store. *)
Definition enrichable (t : row) : bool :=
  match fetched t with Some (_ :: _) => true | _ => false end.

(** Rows whose fetched keywords the table refuses to store. *)
Definition refused (t : row) : bool :=
  match fetched t with
  | Some kws => execute_update_fails (SetKeywords kws) (id t)
  | None => false
  end.

(** The statistics of a batch, one outcome counted per row in order. *)
Definition tally (dry_run : bool) (titles : list row) : stats :=
  foldl (fun s t => count (outcome_of dry_run t) s) (Stats (length titles) 0 0 0 0) titles.

(** [print_stats]: the one value it computes is the success rate, in
    percent; the model returns it in place of printing it. *)
Definition print_stats (s : stats) : M Q :=
  ratio <- lift (truediv (success s) (total s)) ;;
  ret (Qmult ratio (inject_Z 100)).

(** [main], the two answers typed at the prompts being its arguments;
    the result is the statistics it printed, if it got that far. *)
Definition main (choice confirm : string) : M (option stats) :=
  if negb (truthy_opt_str TMDB_API_KEY) then ret None
  else if negb (truthy_opt_str SUPABASE_URL) || negb (truthy_opt_str SUPABASE_KEY)
  then ret None
  else
    let choice := Py.strip choice in
    let plan : option (option Z * bool) :=
      if String.eqb choice "1" then Some (Some 10%Z, true)
      else if String.eqb choice "2" then Some (Some 50%Z, false)
      else if String.eqb choice "3" then Some (Some 100%Z, false)
      else if String.eqb choice "4"
           then if String.eqb (Py.strip confirm) "y" || String.eqb (Py.strip confirm) "Y"
                then Some (None, false) else None
      else None in
    match plan with
    | None => ret None
    | Some (limit, dry_run) =>
        titles <- get_titles_missing_keywords limit ;;
        if negb (Py.truthy_list titles) then ret None
        else
          st <- backfill_keywords_batch titles dry_run ;;
          print_stats st ;;
          ret (Some st)
    end.

End Script.

End Keywords.

(** * backfill_keywords.py: the loop with its progress line

    The dictionaries that [get_titles_missing_keywords] returns hold the
    four selected columns.  The column [popularity] can be NULL, which
    Python reads as [None]; the loop formats it with [:.1f] before it
    fetches anything, and no [try] is around that line. *)

Module KeywordsProgress.

(** The entry [popularity] of a selected dictionary: no such key, the key
    with NULL, or the key with a number. *)
Inductive popularity_entry :=
| NoKey
| Null
| Number (q : Q).

Record title_dict := TitleDict {
  t_id : Z;
  t_title : string;
  t_kind : string;
  t_popularity : popularity_entry
}.

(** [title.get("popularity", 0)]: the default stands in for a missing key,
    not for a NULL. *)
Definition get_popularity (t : title_dict) : option Q :=
  match t_popularity t with
  | NoKey => Some (inject_Z 0)
  | Null => None
  | Number q => Some q
  end.

(** [f"{popularity:.1f}"]: a number has that format, [None] has not. *)
Definition format_1f (popularity : option Q) : result unit :=
  match popularity with
  | Some _ => Return tt
  | None => Raise TypeError
  end.

(** The same dictionary as a row with a popularity, the other columns not
    being selected. *)
Definition as_row (t : title_dict) : row :=
  Row (t_id t) (t_title t) (t_kind t) (default (inject_Z 0) (get_popularity t))
      None None None None.

Definition has_popularity (t : title_dict) : bool :=
  match t_popularity t with Null => false | _ => true end.

Section Script.

Variable tmdb : string -> http_answer.
Variable execute_update_fails : assignment -> Z -> bool.

(** The body of the loop of [backfill_keywords_batch], from the first line
    to the sleep; the progress line comes first and is not in a [try]. *)
Definition process_title (dry_run : bool) (st : Keywords.stats) (t : title_dict)
  : M Keywords.stats :=
  let popularity := get_popularity t in
  lift (format_1f popularity) ;;                       (* print(f"... Pop: {popularity:.1f}]") *)
  keywords <- Keywords.fetch_tmdb_keywords tmdb (t_id t) (t_kind t) ;;
  match keywords with
  | None => ret (Keywords.incr_api_error st)                    (* continue *)
  | Some [] => ret (Keywords.incr_no_keywords_found st)         (* continue *)
  | Some keywords =>
      let found := Py.join ", " (take 5 keywords) in   (* print(f"... {', '.join(keywords[:5])}") *)
      st' <- (if negb dry_run
              then ok <- Keywords.update_keywords_in_db execute_update_fails (t_id t) keywords ;;
                   ret (if ok : bool then Keywords.incr_success st
                        else Keywords.incr_db_error st)
              else ret (Keywords.incr_success st)) ;;
      sleep Keywords.RATE_LIMIT_DELAY ;;
      ret st'
  end.

Definition backfill_keywords_batch (titles : list title_dict) (dry_run : bool)
  : M Keywords.stats :=
  for_each (process_title dry_run) (Keywords.Stats (length titles) 0 0 0 0) titles.

End Script.

End KeywordsProgress.

(** * backfill_themes_overview.py *)

Module ThemesOverview.

(** [TMDB_RATE_LIMIT_DELAY = 0.25], [CLAUDE_RATE_LIMIT_DELAY = 1.0] *)
Definition TMDB_RATE_LIMIT_DELAY : Q := Qmake 1 4.
Definition CLAUDE_RATE_LIMIT_DELAY : Q := Qmake 1 1.

(** The statistics dictionary of [backfill_overviews]. *)
Module OverviewStats.
Record t := Make {
  total : nat;
  success : nat;
  not_found : nat;
  error : nat
}.
Definition incr_success (s : t) : t := Make (total s) (S (success s)) (not_found s) (error s).
Definition incr_not_found (s : t) : t := Make (total s) (success s) (S (not_found s)) (error s).
Definition incr_error (s : t) : t := Make (total s) (success s) (not_found s) (S (error s)).
(** The three counters of outcomes, added up. *)
Definition outcomes (s : t) : nat := success s + not_found s + error s.
End OverviewStats.

(** The statistics dictionary of [backfill_themes]. *)
Module ThemeStats.
Record t := Make {
  total : nat;
  success : nat;
  no_overview : nat;
  error : nat
}.
Definition incr_success (s : t) : t := Make (total s) (S (success s)) (no_overview s) (error s).
Definition incr_no_overview (s : t) : t := Make (total s) (success s) (S (no_overview s)) (error s).
Definition incr_error (s : t) : t := Make (total s) (success s) (no_overview s) (S (error s)).
(** The three counters of outcomes, added up. *)
Definition outcomes (s : t) : nat := success s + no_overview s + error s.
End ThemeStats.

(** [stats["total"]] and [stats["success"]] of either dictionary. *)
Definition total_of (s : OverviewStats.t + ThemeStats.t) : nat :=
  match s with inl o => OverviewStats.total o | inr h => ThemeStats.total h end.

Definition success_of (s : OverviewStats.t + ThemeStats.t) : nat :=
  match s with inl o => OverviewStats.success o | inr h => ThemeStats.success h end.

(** The counter one pass of [backfill_overviews] bumps. *)
Inductive overview_tally :=
| OvSuccess
| OvNotFound
| OvError.

(** The counter one pass of [backfill_themes] bumps. *)
Inductive theme_tally :=
| ThSuccess
| ThNoOverview
| ThError.

(** The address [fetch_tmdb_overview] asks for. *)
Definition overview_url (tmdb_id : Z) (kind : string) : string :=
  if String.eqb kind "movie"
  then "https://api.themoviedb.org/3/movie/" ++ Py.str_of_int tmdb_id
  else "https://api.themoviedb.org/3/tv/" ++ Py.str_of_int tmdb_id.

(** [data.get("overview", "").strip()] and the [return] after it. *)
Definition extract_overview (data : json) : result (option string) :=
  match dict_get data "overview" (JString "") with
  | Return v =>
      match strip_value v with
      | Return overview => Return (if Py.truthy_str overview then Some overview else None)
      | Raise e => Raise e
      end
  | Raise e => Raise e
  end.

Definition dquote : string := String (ascii_of_nat 34) EmptyString.

(** The f-string of [generate_themes_with_claude]. *)
Definition prompt_of (title overview joined_genres : string) : string :=
  "Analyze this " ++ joined_genres ++ " title and extract 3-5 core thematic tags.

Title: " ++ title ++ "
Overview: " ++ overview ++ "

Return ONLY a comma-separated list of thematic tags (e.g., " ++ dquote
  ++ "revenge, redemption, family, identity, power" ++ dquote ++ ").

Focus on universal human themes like:
- Emotions: love, fear, hope, despair, grief
- Relationships: family, friendship, betrayal, loyalty
- Concepts: identity, justice, freedom, sacrifice, survival
- Social: inequality, corruption, prejudice, tradition
- Existential: mortality, purpose, memory, truth

Themes (comma-separated):".

(** ["/".join(genres)]: the column may be null, and [None] cannot be
    joined. *)
Definition join_genres (genres : option (list string)) : result string :=
  match genres with
  | Some l => Return (Py.join "/" l)
  | None => Raise TypeError
  end.

(** [message.content[0].text] *)
Definition first_text (content : list string) : result string :=
  match content with
  | [] => Raise IndexError
  | text :: _ => Return text
  end.

(** [t and len(t) > 2 and len(t) < 50] *)
Definition keeps (t : string) : bool :=
  Py.truthy_str t && Nat.ltb 2 (String.length t) && Nat.ltb (String.length t) 50.

(** A tag as [accepted_themes] lets through, seen from outside: it is not
    empty, it holds no comma and it has no white space at either end. *)
Definition tidy (t : string) : Prop :=
  t <> "" /\ Py.contains "," t = false /\ Py.starts_clean t /\ Py.ends_clean t.

(** [[theme.strip() for theme in themes_text.split(",")]] *)
Definition candidates (text : string) : list string :=
  map Py.strip (Py.split "," (Py.strip text)).

(** The lines of [generate_themes_with_claude] from [themes_text] to
    [return]: split on commas, strip, keep by length, at most five. *)
Definition accepted_themes (text : string) : option (list string) :=
  let themes := candidates text in
  let themes := List.filter keeps themes in
  if Py.truthy_list themes then Some (take 5 themes) else None.

Section Script.

Variable tmdb : string -> http_answer.
Variable execute_update_fails : assignment -> Z -> bool.

(** The module's [claude]: [None] without [ANTHROPIC_API_KEY], else the
    client, which answers a prompt. *)
Variable claude : option (string -> completion).

Definition fetch_tmdb_overview (tmdb_id : Z) (kind : string) : M (option string) :=
  try_except
    (data <- http_get_json tmdb (overview_url tmdb_id kind) ;;
     lift (extract_overview data))
    (fun e =>
       if is_request_exception e then ret None   (* except RequestException *)
       else ret None).                           (* except Exception *)

(** [claude.messages.create(...)] *)
Definition messages_create (client : string -> completion) (prompt : string)
  : M (list string) :=
  emit (MessagesCreate prompt) ;;
  match client prompt with
  | ModelFailed => raise APIError
  | Message content => ret content
  end.

Definition generate_themes_with_claude
    (title overview : string) (genres : option (list string)) : M (option (list string)) :=
  match claude with
  | None => ret None
  | Some client =>
      try_except
        (joined <- lift (join_genres genres) ;;
         content <- messages_create client (prompt_of title overview joined) ;;
         text <- lift (first_text content) ;;
         ret (accepted_themes text))
        (fun _ => ret None)
  end.

Definition update_overview_in_db (title_id : Z) (overview : string) : M bool :=
  try_except
    (execute_update execute_update_fails (SetOverview overview) title_id ;;
     ret true)
    (fun _ => ret false).

Definition update_themes_in_db (title_id : Z) (themes : list string) : M bool :=
  try_except
    (execute_update execute_update_fails (SetThemes themes) title_id ;;
     ret true)
    (fun _ => ret false).

(** The body of the loop of [backfill_overviews]. *)
Definition process_overview (dry_run : bool) (st : OverviewStats.t) (t : row)
  : M OverviewStats.t :=
  overview <- fetch_tmdb_overview (id t) (kind t) ;;
  match overview with
  | None => ret (OverviewStats.incr_error st)                  (* continue *)
  | Some EmptyString => ret (OverviewStats.incr_not_found st)  (* continue *)
  | Some overview =>
      st' <- (if negb dry_run
              then ok <- update_overview_in_db (id t) overview ;;
                   ret (if ok : bool then OverviewStats.incr_success st
                        else OverviewStats.incr_error st)
              else ret (OverviewStats.incr_success st)) ;;
      sleep TMDB_RATE_LIMIT_DELAY ;;
      ret st'
  end.

Definition backfill_overviews (titles : list row) (dry_run : bool) : M OverviewStats.t :=
  for_each (process_overview dry_run) (OverviewStats.Make (length titles) 0 0 0) titles.

(** The body of the loop of [backfill_themes]. *)
Definition process_themes (dry_run : bool) (st : ThemeStats.t) (t : row) : M ThemeStats.t :=
  if negb (truthy_opt_str (overview t))
  then ret (ThemeStats.incr_no_overview st)                    (* continue *)
  else
    themes <- generate_themes_with_claude (title t) (default "" (overview t)) (genres t) ;;
    match themes with
    | None | Some [] => ret (ThemeStats.incr_error st)         (* continue *)
    | Some themes =>
        st' <- (if negb dry_run
                then ok <- update_themes_in_db (id t) themes ;;
                     ret (if ok : bool then ThemeStats.incr_success st
                          else ThemeStats.incr_error st)
                else ret (ThemeStats.incr_success st)) ;;
        sleep CLAUDE_RATE_LIMIT_DELAY ;;
        ret st'
    end.

Definition backfill_themes (titles : list row) (dry_run use_claude : bool) : M ThemeStats.t :=
  let st := ThemeStats.Make (length titles) 0 0 0 in
  if negb use_claude || negb (bool_decide (is_Some claude)) then ret st
  else for_each (process_themes dry_run) st titles.

(** [print_stats], for either dictionary: the success rate in percent, when
    it computes one. *)
Definition print_stats (s : OverviewStats.t + ThemeStats.t) (operation : string)
  : M (option Q) :=
  if Nat.ltb 0 (total_of s)
  then ratio <- lift (truediv (success_of s) (total_of s)) ;;
       ret (Some (Qmult ratio (inject_Z 100)))
  else ret None.

(** *** One pass of either loop, read off the answers of the services

    As for the keywords: what the fetch or the generation returns, the
    counter a pass bumps, the calls it makes and the table it leaves;
    [process_overview_run] and [process_themes_run] below show that the
    loop bodies do exactly this. *)

Definition count_overview (o : overview_tally) (st : OverviewStats.t) : OverviewStats.t :=
  match o with
  | OvSuccess => OverviewStats.incr_success st
  | OvNotFound => OverviewStats.incr_not_found st
  | OvError => OverviewStats.incr_error st
  end.

Definition count_themes (o : theme_tally) (st : ThemeStats.t) : ThemeStats.t :=
  match o with
  | ThSuccess => ThemeStats.incr_success st
  | ThNoOverview => ThemeStats.incr_no_overview st
  | ThError => ThemeStats.incr_error st
  end.

Definition fetched (t : row) : option string :=
  match tmdb (overview_url (id t) (kind t)) with
  | HttpFailed => None
  | HttpJson data =>
      match extract_overview data with
      | Return r => r
      | Raise _ => None
      end
  end.

Definition overview_outcome (dry_run : bool) (t : row) : overview_tally :=
  match fetched t with
  | None => OvError
  | Some EmptyString => OvNotFound
  | Some ov =>
      if negb dry_run && execute_update_fails (SetOverview ov) (id t)
      then OvError else OvSuccess
  end.

Definition overview_events (dry_run : bool) (t : row) : list event :=
  HttpGet (overview_url (id t) (kind t)) ::
  match fetched t with
  | None | Some EmptyString => []
  | Some ov =>
      (if dry_run then [] else [TableUpdate (SetOverview ov) (id t)])
      ++ [Sleep TMDB_RATE_LIMIT_DELAY]
  end.

Definition overview_table (dry_run : bool) (t : row) (tbl : gmap Z row) : gmap Z row :=
  match fetched t with
  | None | Some EmptyString => tbl
  | Some ov =>
      if dry_run || execute_update_fails (SetOverview ov) (id t) then tbl
      else alter (assign (SetOverview ov)) (id t) tbl
  end.

(** Rows for which the themes loop has a prompt to send: an overview that
    is not empty and genres that are not null. *)
Definition promptable (t : row) : bool :=
  truthy_opt_str (overview t) && bool_decide (is_Some (genres t)).

(** The prompt sent for a row, when there is a client and the genres can be
    joined. *)
Definition prompt_for (t : row) : option string :=
  match claude, join_genres (genres t) with
  | Some _, Return joined => Some (prompt_of (title t) (default "" (overview t)) joined)
  | _, _ => None
  end.

Definition generated (t : row) : option (list string) :=
  match claude, prompt_for t with
  | Some client, Some prompt =>
      match client prompt with
      | ModelFailed => None
      | Message content =>
          match first_text content with
          | Return text => accepted_themes text
          | Raise _ => None
          end
      end
  | _, _ => None
  end.

Definition themes_outcome (dry_run : bool) (t : row) : theme_tally :=
  if negb (truthy_opt_str (overview t)) then ThNoOverview
  else match generated t with
       | None | Some [] => ThError
       | Some th =>
           if negb dry_run && execute_update_fails (SetThemes th) (id t)
           then ThError else ThSuccess
       end.

Definition themes_events (dry_run : bool) (t : row) : list event :=
  if negb (truthy_opt_str (overview t)) then []
  else
    match prompt_for t with
    | Some prompt => [MessagesCreate prompt]
    | None => []
    end ++
    match generated t with
    | None | Some [] => []
    | Some th =>
        (if dry_run then [] else [TableUpdate (SetThemes th) (id t)])
        ++ [Sleep CLAUDE_RATE_LIMIT_DELAY]
    end.

Definition themes_table (dry_run : bool) (t : row) (tbl : gmap Z row) : gmap Z row :=
  if negb (truthy_opt_str (overview t)) then tbl
  else match generated t with
       | None | Some [] => tbl
       | Some th =>
           if dry_run || execute_update_fails (SetThemes th) (id t) then tbl
           else alter (assign (SetThemes th)) (id t) tbl
       end.

(** The guard at the head of [backfill_themes]: whether the loop runs. *)
Definition themes_enabled (use_claude : bool) : bool :=
  use_claude && bool_decide (is_Some claude).

(** The statistics of a batch, one counter bumped per row in order. *)
Definition tally_overviews (dry_run : bool) (titles : list row) : OverviewStats.t :=
  foldl (fun s t => count_overview (overview_outcome dry_run t) s)
        (OverviewStats.Make (length titles) 0 0 0) titles.

Definition tally_themes (dry_run : bool) (titles : list row) : ThemeStats.t :=
  foldl (fun s t => count_themes (themes_outcome dry_run t) s)
        (ThemeStats.Make (length titles) 0 0 0) titles.

(** Rows for which the generation gives tags to store. *)
Definition enrichable (t : row) : bool :=
  truthy_opt_str (overview t) &&
  match generated t with Some (_ :: _) => true | _ => false end.

End Script.

(** *** The selects and [main] *)

(** The selects that [get_titles_missing_overview] and
    [get_titles_missing_themes] build. *)
Definition overview_query (limit : option Z) : query :=
  Query "id, title, kind, overview, popularity" "overview" (limit_clause limit)
        "popularity" true.

Definition themes_query (limit : option Z) : query :=
  Query "id, title, kind, overview, genres, themes, vibes, popularity" "themes"
        (limit_clause limit) "popularity" true.

Section Program.

Variable tmdb : string -> http_answer.
Variable execute_update_fails : assignment -> Z -> bool.
Variable execute_select : gmap Z row -> query -> result (list row).

(** The four keys as [os.getenv] left them, and the client that
    [anthropic.Anthropic(api_key=ANTHROPIC_API_KEY)] builds. *)
Variables TMDB_API_KEY SUPABASE_URL SUPABASE_KEY ANTHROPIC_API_KEY : option string.
Variable anthropic_client : string -> completion.

(** [claude = anthropic.Anthropic(...) if ANTHROPIC_API_KEY else None] *)
Definition claude : option (string -> completion) :=
  if truthy_opt_str ANTHROPIC_API_KEY then Some anthropic_client else None.

Definition get_titles_missing_overview (limit : option Z) : M (list row) :=
  try_except
    (execute_query execute_select
       (Query "id, title, kind, overview, popularity" "overview" (limit_clause limit)
              "popularity" true))
    (fun _ => ret []).

Definition get_titles_missing_themes (limit : option Z) : M (list row) :=
  try_except
    (execute_query execute_select
       (Query "id, title, kind, overview, genres, themes, vibes, popularity" "themes"
              (limit_clause limit) "popularity" true))
    (fun _ => ret []).

(** The overview step of [main]: select, and backfill and print when the
    selection is not empty. *)
Definition overview_step (dry_run : bool) : M (option OverviewStats.t) :=
  titles <- get_titles_missing_overview None ;;
  if Py.truthy_list titles
  then st <- backfill_overviews tmdb execute_update_fails titles dry_run ;;
       print_stats (inl st) "Overview Backfill" ;;
       ret (Some st)
  else ret None.

(** The themes step of [main], likewise. *)
Definition themes_step (dry_run : bool) : M (option ThemeStats.t) :=
  titles <- get_titles_missing_themes None ;;
  if Py.truthy_list titles
  then st <- backfill_themes execute_update_fails claude titles dry_run true ;;
       print_stats (inr st) "Theme Generation" ;;
       ret (Some st)
  else ret None.

(** [main], the two answers typed at the prompts being its arguments; the
    result is the statistics it printed for the overviews and for the
    themes, where it got that far. *)
Definition main (choice dry_run_input : string)
  : M (option OverviewStats.t * option ThemeStats.t) :=
  if negb (truthy_opt_str TMDB_API_KEY) then ret (None, None)
  else if negb (truthy_opt_str SUPABASE_URL) || negb (truthy_opt_str SUPABASE_KEY)
  then ret (None, None)
  else
    let choice := Py.strip choice in
    let dry_run := String.eqb (Py.lower (Py.strip dry_run_input)) "y" in
    if String.eqb choice "1" then
      s1 <- overview_step dry_run ;;
      ret (s1, None)
    else if String.eqb choice "2" then
      if negb (truthy_opt_str ANTHROPIC_API_KEY) then ret (None, None)
      else s2 <- themes_step dry_run ;;
           ret (None, s2)
    else if String.eqb choice "3" then
      s1 <- overview_step dry_run ;;
      s2 <- (if truthy_opt_str ANTHROPIC_API_KEY then themes_step dry_run else ret None) ;;
      ret (s1, s2)
    else ret (None, None).

End Program.

End ThemesOverview.

(** * Sample rows and services *)

Module Sample.

(** Three films of popularity 90, 10 and 50, no column filled yet. *)
Definition heat : row := Row 101 "Heat" "movie" (Qmake 90 1) None None None None.
Definition blank : row := Row 102 "Blank" "movie" (Qmake 10 1) None None None None.
Definition gone : row := Row 103 "Gone" "movie" (Qmake 50 1) None None None None.

Definition titles_table : gmap Z row :=
  list_to_map [(101%Z, heat); (102%Z, blank); (103%Z, gone)].

Definition start : world := World titles_table [].

(** The catalogue lists two keywords for the first film and an empty list
    for the second; the request for the third fails. *)
Definition catalogue (url : string) : http_answer :=
  if String.eqb url "https://api.themoviedb.org/3/movie/101/keywords"
  then HttpJson (JObject [("id", JNumber 101);
                          ("keywords", JArray [Keyword 9807 (Some "noir");
                                               Keyword 10051 (Some "heist")])])
  else if String.eqb url "https://api.themoviedb.org/3/movie/102/keywords"
  then HttpJson (JObject [("id", JNumber 102); ("keywords", JArray [])])
  else HttpFailed.

(** A table that takes every update, and one that refuses every update. *)
Definition takes_all (a : assignment) (i : Z) : bool := false.
Definition refuses_all (a : assignment) (i : Z) : bool := true.

(** A series as the catalogue answers for it, under the key [results]. *)
Definition series_body : list (string * json) :=
  [("id", JNumber 1399); ("results", JArray [Keyword 6091 (Some "war")])].

Definition series_catalogue (url : string) : http_answer :=
  if String.eqb url "https://api.themoviedb.org/3/tv/1399/keywords"
  then HttpJson (JObject series_body)
  else HttpFailed.

(** The catalogue has an overview for the first film only; the request for
    the third fails and the second has an empty overview. *)
Definition overview_catalogue (url : string) : http_answer :=
  if String.eqb url "https://api.themoviedb.org/3/movie/101"
  then HttpJson (JObject [("id", JNumber 101); ("overview", JString " A heist goes wrong. ")])
  else if String.eqb url "https://api.themoviedb.org/3/movie/102"
  then HttpJson (JObject [("id", JNumber 102); ("overview", JString "")])
  else HttpFailed.

(** A film with an overview and genres, to generate themes for. *)
Definition drama : row :=
  Row 278 "Hope" "movie" (Qmake 70 1)
      (Some "A banker is sent to prison and keeps hoping.") (Some ["Drama"; "Crime"])
      None None.

Definition raw_tags : string :=
  "a, revenge, redemption, xx, this-is-a-very-long-tag-that-exceeds-the-fifty-character-sanity-limit-threshold".

(** Clients of the text model: one answers the raw tags above, one answers
    two tags that are both too short, one fails. *)
Definition answers (text : string) (prompt : string) : completion := Message [text].
Definition failing (prompt : string) : completion := ModelFailed.

(** The catalogue answers for the second film with a dictionary that has no
    key [keywords]. *)
Definition keyless_catalogue (url : string) : http_answer :=
  if String.eqb url "https://api.themoviedb.org/3/movie/102/keywords"
  then HttpJson (JObject [("id", JNumber 102)])
  else HttpFailed.

Definition silent_catalogue (url : string) : http_answer := HttpFailed.

(** An answer with both keys, and different keywords under each. *)
Definition mixed_body : list (string * json) :=
  [("id", JNumber 1399);
   ("keywords", JArray [Keyword 9807 (Some "noir")]);
   ("results", JArray [Keyword 6091 (Some "war"); Keyword 818 (Some "throne")])].

Definition mixed_catalogue (url : string) : http_answer :=
  if String.eqb url "https://api.themoviedb.org/3/tv/1399/keywords"
  then HttpJson (JObject mixed_body)
  else if String.eqb url "https://api.themoviedb.org/3/tv/7/keywords"
  then HttpJson (JObject [("id", JNumber 7); ("keywords", JArray [Keyword 9807 (Some "noir")])])
  else HttpFailed.

(** The three films as the select returns them, the second with a NULL
    popularity. *)
Definition heat_dict : KeywordsProgress.title_dict :=
  KeywordsProgress.TitleDict 101 "Heat" "movie" (KeywordsProgress.Number (Qmake 90 1)).
Definition blank_dict : KeywordsProgress.title_dict :=
  KeywordsProgress.TitleDict 102 "Blank" "movie" KeywordsProgress.Null.
Definition gone_dict : KeywordsProgress.title_dict :=
  KeywordsProgress.TitleDict 103 "Gone" "movie" (KeywordsProgress.Number (Qmake 50 1)).

End Sample.

(** * Facts *)

Local Open Scope nat_scope.

Example strip_sample : Py.strip "  revenge " = "revenge".
Proof. reflexivity. Qed.

Example split_sample : Py.split "," "a,,b," = ["a"; ""; "b"; ""].
Proof. reflexivity. Qed.

Example split_empty : Py.split "," "" = [""].
Proof. reflexivity. Qed.

Example str_of_int_sample : Py.str_of_int 603 = "603" /\ Py.str_of_int (-7) = "-7".
Proof. split; reflexivity. Qed.

Example accepted_sample :
  ThemesOverview.accepted_themes " love , loss,ab, grief" = Some ["love"; "loss"; "grief"].
Proof. reflexivity. Qed.

(** ** Loops whose passes never raise *)

(** When every pass returns, bumps the statistics by [f], changes the table
    by [g] and appends the events [ev], the loop returns the statistics
    folded over the batch, the table folded over the batch and the events
    of all passes in order. *)
Lemma for_each_run {A S} (body : S -> A -> M S)
    (f : A -> S -> S) (g : A -> gmap Z row -> gmap Z row) (ev : A -> list event) :
  (forall st x w,
      body st x w = (Return (f x st), World (g x (table w)) (log w ++ ev x))) ->
  forall l st w,
    for_each body st l w =
    (Return (foldl (fun s x => f x s) st l),
     World (foldl (fun t x => g x t) (table w) l) (log w ++ flat_map ev l)).
Proof.
  intros Hbody l. induction l as [|x l IH]; intros st w; simpl.
  - unfold ret. rewrite app_nil_r. destruct w; reflexivity.
  - unfold bind. rewrite Hbody, IH. simpl. now rewrite <- app_assoc.
Qed.

Lemma bind_returns {A B} (m : M A) (k : A -> M B) (w : world) (a : A) (w' : world) :
  m w = (Return a, w') -> bind m k w = k a w'.
Proof. intros H. unfold bind. now rewrite H. Qed.

Lemma sleeps_app (l1 l2 : list event) : sleeps (l1 ++ l2) = sleeps l1 + sleeps l2.
Proof. unfold sleeps. now rewrite filter_app, length_app. Qed.

Lemma updates_app (l1 l2 : list event) : updates (l1 ++ l2) = updates l1 ++ updates l2.
Proof. unfold updates. apply omap_app. Qed.

Lemma urls_app (l1 l2 : list event) : urls (l1 ++ l2) = urls l1 ++ urls l2.
Proof. unfold urls. apply omap_app. Qed.

(** The names of a list of objects: all of them, or [KeyError] at the first
    object without one. *)
Lemma names_of_items_all_or_nothing (items : list keyword) :
  names_of_items items
  = if forallb has_name items
    then Return (omap kw_name items)
    else Raise KeyError.
Proof.
  induction items as [|kw items IH]; [reflexivity|].
  cbn [names_of_items forallb omap list_omap]. unfold has_name at 1.
  destruct (kw_name kw) as [n|]; [|reflexivity].
  rewrite IH. cbn [andb]. now destruct (forallb has_name items).
Qed.

(** ** The keywords script *)

Section KeywordsFacts.

Variable tmdb : string -> http_answer.
Variable execute_update_fails : assignment -> Z -> bool.

Local Abbreviation fetch_tmdb_keywords := (Keywords.fetch_tmdb_keywords tmdb).
Local Abbreviation update_keywords_in_db := (Keywords.update_keywords_in_db execute_update_fails).
Local Abbreviation process_title := (Keywords.process_title tmdb execute_update_fails).
Local Abbreviation backfill_keywords_batch := (Keywords.backfill_keywords_batch tmdb execute_update_fails).
Local Abbreviation fetched := (Keywords.fetched tmdb).
Local Abbreviation outcome_of := (Keywords.outcome_of tmdb execute_update_fails).
Local Abbreviation events_of := (Keywords.events_of tmdb).
Local Abbreviation table_after := (Keywords.table_after tmdb execute_update_fails).

(** The fetch never raises: it logs one GET and returns [fetched]. *)
Lemma fetch_tmdb_keywords_run (t : row) (w : world) :
  fetch_tmdb_keywords (id t) (kind t) w =
  (Return (fetched t),
   World (table w) (log w ++ [HttpGet (Keywords.keywords_url (id t) (kind t))])).
Proof.
  unfold Keywords.fetch_tmdb_keywords, Keywords.fetched, try_except, bind,
    http_get_json, emit, lift, raise, ret; simpl.
  destruct (tmdb _) as [|data]; simpl; [reflexivity|].
  destruct (Keywords.extract_keywords _ _) as [r|e]; simpl; [reflexivity|].
  destruct (is_request_exception e); reflexivity.
Qed.

(** The update never raises: it logs the call and returns whether the
    table took it. *)
Lemma update_keywords_in_db_run (i : Z) (kws : list string) (w : world) :
  update_keywords_in_db i kws w =
  (Return (negb (execute_update_fails (SetKeywords kws) i)),
   World (if execute_update_fails (SetKeywords kws) i then table w
          else alter (assign (SetKeywords kws)) i (table w))
         (log w ++ [TableUpdate (SetKeywords kws) i])).
Proof.
  unfold Keywords.update_keywords_in_db, try_except, bind, execute_update,
    emit, raise, ret, get_table, put_table; simpl.
  destruct (execute_update_fails _ _); reflexivity.
Qed.

Lemma process_title_run (dry_run : bool) (st : Keywords.stats) (t : row) (w : world) :
  process_title dry_run st t w =
  (Return (Keywords.count (outcome_of dry_run t) st),
   World (table_after dry_run t (table w)) (log w ++ events_of dry_run t)).
Proof.
  unfold Keywords.process_title, bind at 1. rewrite fetch_tmdb_keywords_run.
  unfold Keywords.outcome_of, Keywords.events_of, Keywords.table_after.
  destruct (fetched t) as [[|k ks]|]; simpl.
  - unfold ret. reflexivity.
  - destruct dry_run; simpl.
    + unfold bind, ret, sleep, emit; simpl. now rewrite <- app_assoc.
    + unfold bind at 1 2. rewrite update_keywords_in_db_run.
      unfold bind, ret, sleep, emit; simpl.
      destruct (execute_update_fails _ _); simpl; now rewrite <- !app_assoc.
  - unfold ret. reflexivity.
Qed.

(** The whole batch: one outcome per row, tallied in order. *)
Lemma backfill_keywords_batch_run (titles : list row) (dry_run : bool) (w : world) :
  backfill_keywords_batch titles dry_run w =
  (Return (foldl (fun s t => Keywords.count (outcome_of dry_run t) s)
                 (Keywords.Stats (length titles) 0 0 0 0) titles),
   World (foldl (fun tbl t => table_after dry_run t tbl) (table w) titles)
         (log w ++ flat_map (events_of dry_run) titles)).
Proof.
  unfold Keywords.backfill_keywords_batch.
  apply (for_each_run _ (fun t => Keywords.count (outcome_of dry_run t))
           (table_after dry_run) (events_of dry_run)).
  intros. apply process_title_run.
Qed.

(** Each outcome bumps exactly one of the four counters and leaves [total]
    alone. *)
Lemma count_outcomes (o : outcome) (st : Keywords.stats) :
  Keywords.outcomes (Keywords.count o st) = S (Keywords.outcomes st).
Proof. destruct o; unfold Keywords.outcomes; simpl; lia. Qed.

Lemma count_total (o : outcome) (st : Keywords.stats) :
  Keywords.total (Keywords.count o st) = Keywords.total st.
Proof. destruct o; reflexivity. Qed.

Lemma tally_outcomes (dry_run : bool) (titles : list row) (st : Keywords.stats) :
  Keywords.outcomes (foldl (fun s t => Keywords.count (outcome_of dry_run t) s) st titles)
  = Keywords.outcomes st + length titles.
Proof.
  revert st. induction titles as [|t titles IH]; intros st; simpl; [lia|].
  rewrite IH, count_outcomes. lia.
Qed.

Lemma tally_total (dry_run : bool) (titles : list row) (st : Keywords.stats) :
  Keywords.total (foldl (fun s t => Keywords.count (outcome_of dry_run t) s) st titles)
  = Keywords.total st.
Proof.
  revert st. induction titles as [|t titles IH]; intros st; simpl; [reflexivity|].
  now rewrite IH, count_total.
Qed.

(** [extract_keywords] hands back a list only when it is not empty. *)
Lemma extract_keywords_not_empty (k : string) (data : json) :
  Keywords.extract_keywords k data <> Return (Some []).
Proof.
  unfold Keywords.extract_keywords.
  destruct (if String.eqb k "movie" then _ else _) as [[|n ns]|e]; discriminate.
Qed.

Lemma fetched_not_empty (t : row) : fetched t <> Some [].
Proof.
  unfold Keywords.fetched. destruct (tmdb _) as [|data]; [discriminate|].
  pose proof (extract_keywords_not_empty (kind t) data) as H.
  destruct (Keywords.extract_keywords _ _) as [r|e]; [|discriminate].
  intros ->. now apply H.
Qed.

(** So no pass ever has the outcome [UpstreamEmpty]. *)
Lemma outcome_of_not_empty (dry_run : bool) (t : row) :
  outcome_of dry_run t <> UpstreamEmpty.
Proof.
  unfold Keywords.outcome_of. pose proof (fetched_not_empty t) as H.
  destruct (fetched t) as [[|k ks]|]; [congruence| |discriminate].
  destruct (negb dry_run && _); discriminate.
Qed.

Lemma tally_no_keywords_found (dry_run : bool) (titles : list row) (st : Keywords.stats) :
  Keywords.no_keywords_found
    (foldl (fun s t => Keywords.count (outcome_of dry_run t) s) st titles)
  = Keywords.no_keywords_found st.
Proof.
  revert st. induction titles as [|t titles IH]; intros st; simpl; [reflexivity|].
  rewrite IH. pose proof (outcome_of_not_empty dry_run t).
  destruct (outcome_of dry_run t); simpl; congruence.
Qed.

Lemma sleeps_events_of (dry_run : bool) (t : row) :
  sleeps (events_of dry_run t) = paced (outcome_of dry_run t).
Proof.
  unfold Keywords.events_of, Keywords.outcome_of.
  pose proof (fetched_not_empty t) as H.
  destruct (fetched t) as [[|k ks]|]; [congruence| |reflexivity].
  destruct dry_run; simpl; [reflexivity|].
  destruct (execute_update_fails _ _); reflexivity.
Qed.

Lemma tally_paced (dry_run : bool) (titles : list row) (st : Keywords.stats) :
  let st' := foldl (fun s t => Keywords.count (outcome_of dry_run t) s) st titles in
  Keywords.success st' + Keywords.db_error st'
  = Keywords.success st + Keywords.db_error st
    + sleeps (flat_map (events_of dry_run) titles).
Proof.
  revert st. induction titles as [|t titles IH]; intros st; cbn [foldl flat_map].
  - unfold sleeps; simpl; lia.
  - rewrite sleeps_app, sleeps_events_of. cbv zeta in IH. rewrite IH.
    destruct (outcome_of dry_run t); simpl; lia.
Qed.

(** One GET per row, in the order of the batch. *)
Lemma urls_events_of (dry_run : bool) (titles : list row) :
  urls (flat_map (events_of dry_run) titles)
  = map (fun t => Keywords.keywords_url (id t) (kind t)) titles.
Proof.
  induction titles as [|t titles IH]; cbn [flat_map map]; [reflexivity|].
  rewrite urls_app, IH. f_equal.
  unfold Keywords.events_of.
  destruct (fetched t) as [[|k ks]|]; simpl; try reflexivity.
  destruct dry_run; reflexivity.
Qed.

(** In a dry run no pass calls the table. *)
Lemma updates_events_of_dry (titles : list row) :
  updates (flat_map (events_of true) titles) = [].
Proof.
  induction titles as [|t titles IH]; cbn [flat_map]; [reflexivity|].
  rewrite updates_app, IH, app_nil_r.
  unfold Keywords.events_of. destruct (fetched t) as [[|k ks]|]; reflexivity.
Qed.

Lemma table_after_dry (titles : list row) (tbl : gmap Z row) :
  foldl (fun tb t => table_after true t tb) tbl titles = tbl.
Proof.
  induction titles as [|t titles IH]; simpl; [reflexivity|].
  unfold Keywords.table_after at 2. destruct (fetched t) as [[|k ks]|]; apply IH.
Qed.

Lemma tally_success_dry (titles : list row) (st : Keywords.stats) :
  Keywords.success (foldl (fun s t => Keywords.count (outcome_of true t) s) st titles)
  = Keywords.success st + length (List.filter (Keywords.enrichable tmdb) titles).
Proof.
  revert st. induction titles as [|t titles IH]; intros st; simpl; [lia|].
  rewrite IH. unfold Keywords.outcome_of, Keywords.enrichable.
  destruct (fetched t) as [[|k ks]|]; simpl; lia.
Qed.

End KeywordsFacts.

(** ** The themes and overview script *)

Section ThemesOverviewFacts.

Variable tmdb : string -> http_answer.
Variable execute_update_fails : assignment -> Z -> bool.
Variable claude : option (string -> completion).

Local Abbreviation fetch_tmdb_overview := (ThemesOverview.fetch_tmdb_overview tmdb).
Local Abbreviation generate_themes_with_claude :=
  (ThemesOverview.generate_themes_with_claude claude).
Local Abbreviation process_overview :=
  (ThemesOverview.process_overview tmdb execute_update_fails).
Local Abbreviation process_themes :=
  (ThemesOverview.process_themes execute_update_fails claude).
Local Abbreviation backfill_overviews :=
  (ThemesOverview.backfill_overviews tmdb execute_update_fails).
Local Abbreviation backfill_themes :=
  (ThemesOverview.backfill_themes execute_update_fails claude).
Local Abbreviation ov_fetched := (ThemesOverview.fetched tmdb).
Local Abbreviation overview_outcome :=
  (ThemesOverview.overview_outcome tmdb execute_update_fails).
Local Abbreviation overview_events := (ThemesOverview.overview_events tmdb).
Local Abbreviation overview_table :=
  (ThemesOverview.overview_table tmdb execute_update_fails).
Local Abbreviation prompt_for := (ThemesOverview.prompt_for claude).
Local Abbreviation generated := (ThemesOverview.generated claude).
Local Abbreviation themes_outcome :=
  (ThemesOverview.themes_outcome execute_update_fails claude).
Local Abbreviation themes_events := (ThemesOverview.themes_events claude).
Local Abbreviation themes_table :=
  (ThemesOverview.themes_table execute_update_fails claude).
Local Abbreviation themes_enabled := (ThemesOverview.themes_enabled claude).

Lemma fetch_tmdb_overview_run (t : row) (w : world) :
  fetch_tmdb_overview (id t) (kind t) w =
  (Return (ov_fetched t),
   World (table w) (log w ++ [HttpGet (ThemesOverview.overview_url (id t) (kind t))])).
Proof.
  unfold ThemesOverview.fetch_tmdb_overview, ThemesOverview.fetched, try_except, bind,
    http_get_json, emit, lift, raise, ret; simpl.
  destruct (tmdb _) as [|data]; simpl; [reflexivity|].
  destruct (ThemesOverview.extract_overview _) as [r|e]; simpl; [reflexivity|].
  destruct (is_request_exception e); reflexivity.
Qed.

Lemma update_in_db_run (a : assignment) (i : Z) (w : world) :
  try_except (execute_update execute_update_fails a i ;; ret true) (fun _ => ret false) w =
  (Return (negb (execute_update_fails a i)),
   World (if execute_update_fails a i then table w else alter (assign a) i (table w))
         (log w ++ [TableUpdate a i])).
Proof.
  unfold try_except, bind, execute_update, emit, raise, ret, get_table, put_table; simpl.
  destruct (execute_update_fails _ _); reflexivity.
Qed.

(** The generation never raises: it logs the prompt it sent, if any, and
    returns [generated]. *)
Lemma generate_themes_with_claude_run (t : row) (w : world) :
  generate_themes_with_claude (title t) (default "" (overview t)) (genres t) w =
  (Return (generated t),
   World (table w)
         (log w ++ match prompt_for t with Some p => [MessagesCreate p] | None => [] end)).
Proof.
  unfold ThemesOverview.generate_themes_with_claude, ThemesOverview.generated,
    ThemesOverview.prompt_for.
  destruct claude as [client|]; simpl.
  - unfold try_except, bind, lift, ThemesOverview.messages_create, emit, raise, ret; simpl.
    destruct (ThemesOverview.join_genres _) as [joined|e]; simpl.
    + destruct (client _) as [|content]; simpl; [reflexivity|].
      destruct (ThemesOverview.first_text content); reflexivity.
    + rewrite app_nil_r. destruct w; reflexivity.
  - unfold ret. rewrite app_nil_r. destruct w; reflexivity.
Qed.

Lemma process_overview_run (dry_run : bool) (st : ThemesOverview.OverviewStats.t)
    (t : row) (w : world) :
  process_overview dry_run st t w =
  (Return (ThemesOverview.count_overview (overview_outcome dry_run t) st),
   World (overview_table dry_run t (table w)) (log w ++ overview_events dry_run t)).
Proof.
  unfold ThemesOverview.process_overview, bind at 1. rewrite fetch_tmdb_overview_run.
  unfold ThemesOverview.overview_outcome, ThemesOverview.overview_events,
    ThemesOverview.overview_table.
  destruct (ov_fetched t) as [[|c ov]|]; simpl.
  - unfold ret. reflexivity.
  - destruct dry_run; simpl.
    + unfold bind, ret, sleep, emit; simpl. now rewrite <- app_assoc.
    + unfold bind at 1 2. unfold ThemesOverview.update_overview_in_db.
      rewrite update_in_db_run.
      unfold bind, ret, sleep, emit; simpl.
      destruct (execute_update_fails _ _); simpl; now rewrite <- !app_assoc.
  - unfold ret. reflexivity.
Qed.

Lemma process_themes_run (dry_run : bool) (st : ThemesOverview.ThemeStats.t)
    (t : row) (w : world) :
  process_themes dry_run st t w =
  (Return (ThemesOverview.count_themes (themes_outcome dry_run t) st),
   World (themes_table dry_run t (table w)) (log w ++ themes_events dry_run t)).
Proof.
  unfold ThemesOverview.process_themes, ThemesOverview.themes_outcome,
    ThemesOverview.themes_events, ThemesOverview.themes_table.
  destruct (negb (truthy_opt_str (overview t))).
  - unfold ret. rewrite app_nil_r. destruct w; reflexivity.
  - unfold bind at 1. rewrite generate_themes_with_claude_run.
    destruct (generated t) as [[|th ths]|]; simpl.
    + unfold ret. now rewrite app_nil_r.
    + destruct dry_run; simpl.
      * unfold bind, ret, sleep, emit; simpl. now rewrite <- app_assoc.
      * unfold bind at 1 2. unfold ThemesOverview.update_themes_in_db.
        rewrite update_in_db_run.
        unfold bind, ret, sleep, emit; simpl.
        destruct (execute_update_fails _ _); simpl; now rewrite <- !app_assoc.
    + unfold ret. now rewrite app_nil_r.
Qed.

Lemma backfill_overviews_run (titles : list row) (dry_run : bool) (w : world) :
  backfill_overviews titles dry_run w =
  (Return (foldl (fun s t => ThemesOverview.count_overview (overview_outcome dry_run t) s)
                 (ThemesOverview.OverviewStats.Make (length titles) 0 0 0) titles),
   World (foldl (fun tbl t => overview_table dry_run t tbl) (table w) titles)
         (log w ++ flat_map (overview_events dry_run) titles)).
Proof.
  unfold ThemesOverview.backfill_overviews.
  apply (for_each_run _ (fun t => ThemesOverview.count_overview (overview_outcome dry_run t))
           (overview_table dry_run) (overview_events dry_run)).
  intros. apply process_overview_run.
Qed.

Lemma backfill_themes_run (titles : list row) (dry_run use_claude : bool) (w : world) :
  backfill_themes titles dry_run use_claude w =
  if themes_enabled use_claude
  then (Return (foldl (fun s t => ThemesOverview.count_themes (themes_outcome dry_run t) s)
                      (ThemesOverview.ThemeStats.Make (length titles) 0 0 0) titles),
        World (foldl (fun tbl t => themes_table dry_run t tbl) (table w) titles)
              (log w ++ flat_map (themes_events dry_run) titles))
  else (Return (ThemesOverview.ThemeStats.Make (length titles) 0 0 0), w).
Proof.
  unfold ThemesOverview.backfill_themes, ThemesOverview.themes_enabled.
  destruct use_claude; simpl; [|reflexivity].
  destruct (bool_decide (is_Some claude)); simpl; [|reflexivity].
  apply (for_each_run _ (fun t => ThemesOverview.count_themes (themes_outcome dry_run t))
           (themes_table dry_run) (themes_events dry_run)).
  intros. apply process_themes_run.
Qed.

Lemma tally_overview_outcomes (dry_run : bool) (titles : list row)
    (st : ThemesOverview.OverviewStats.t) :
  let st' := foldl (fun s t => ThemesOverview.count_overview (overview_outcome dry_run t) s)
                   st titles in
  ThemesOverview.OverviewStats.outcomes st'
  = ThemesOverview.OverviewStats.outcomes st + length titles
  /\ ThemesOverview.OverviewStats.total st' = ThemesOverview.OverviewStats.total st.
Proof.
  revert st. induction titles as [|t titles IH]; intros st; cbn [foldl length].
  - split; [lia|reflexivity].
  - cbv zeta in IH. destruct (IH (ThemesOverview.count_overview (overview_outcome dry_run t) st))
      as [-> ->].
    unfold ThemesOverview.OverviewStats.outcomes.
    destruct (overview_outcome dry_run t); simpl; split; (lia || reflexivity).
Qed.

Lemma tally_themes_outcomes (dry_run : bool) (titles : list row)
    (st : ThemesOverview.ThemeStats.t) :
  let st' := foldl (fun s t => ThemesOverview.count_themes (themes_outcome dry_run t) s)
                   st titles in
  ThemesOverview.ThemeStats.outcomes st'
  = ThemesOverview.ThemeStats.outcomes st + length titles
  /\ ThemesOverview.ThemeStats.total st' = ThemesOverview.ThemeStats.total st.
Proof.
  revert st. induction titles as [|t titles IH]; intros st; cbn [foldl length].
  - split; [lia|reflexivity].
  - cbv zeta in IH. destruct (IH (ThemesOverview.count_themes (themes_outcome dry_run t) st))
      as [-> ->].
    unfold ThemesOverview.ThemeStats.outcomes.
    destruct (themes_outcome dry_run t); simpl; split; (lia || reflexivity).
Qed.

(** In a dry run no pass of the themes loop calls the table. *)
Lemma updates_themes_events_dry (titles : list row) :
  updates (flat_map (themes_events true) titles) = [].
Proof.
  induction titles as [|t titles IH]; cbn [flat_map]; [reflexivity|].
  rewrite updates_app, IH, app_nil_r.
  unfold ThemesOverview.themes_events.
  destruct (negb (truthy_opt_str (overview t))); [reflexivity|].
  rewrite updates_app.
  destruct (prompt_for t), (generated t) as [[|th ths]|]; reflexivity.
Qed.

Lemma themes_table_dry (titles : list row) (tbl : gmap Z row) :
  foldl (fun tb t => themes_table true t tb) tbl titles = tbl.
Proof.
  induction titles as [|t titles IH]; cbn [foldl]; [reflexivity|].
  unfold ThemesOverview.themes_table at 2.
  destruct (negb (truthy_opt_str (overview t))); [apply IH|].
  destruct (generated t) as [[|th ths]|]; apply IH.
Qed.

Lemma tally_themes_success_dry (titles : list row) (st : ThemesOverview.ThemeStats.t) :
  ThemesOverview.ThemeStats.success
    (foldl (fun s t => ThemesOverview.count_themes (themes_outcome true t) s) st titles)
  = ThemesOverview.ThemeStats.success st
    + length (List.filter (ThemesOverview.enrichable claude) titles).
Proof.
  revert st. induction titles as [|t titles IH]; intros st; cbn [foldl List.filter]; [simpl; lia|].
  rewrite IH. unfold ThemesOverview.themes_outcome, ThemesOverview.enrichable.
  destruct (truthy_opt_str (overview t)); simpl; [|lia].
  destruct (generated t) as [[|th ths]|]; simpl; lia.
Qed.

End ThemesOverviewFacts.

(** * Properties of the two scripts *)

(** ** Supporting facts about whole batches *)

(** The keywords loop sleeps once per row counted in [success] or
    [db_error], and not at all for the others. *)
Lemma keywords_sleeps (tmdb : string -> http_answer)
    (execute_update_fails : assignment -> Z -> bool)
    (titles : list row) (dry_run : bool) (w : world) :
  let r := Keywords.backfill_keywords_batch tmdb execute_update_fails titles dry_run w in
  let st := Keywords.tally tmdb execute_update_fails dry_run titles in
  fst r = Return st /\
  sleeps (log (snd r)) = sleeps (log w) + Keywords.success st + Keywords.db_error st.
Proof.
  cbv zeta. rewrite backfill_keywords_batch_run. cbn [fst snd log]. split; [reflexivity|].
  rewrite sleeps_app. unfold Keywords.tally.
  pose proof (tally_paced tmdb execute_update_fails dry_run titles
                (Keywords.Stats (length titles) 0 0 0 0)) as H.
  cbv zeta in H. simpl Keywords.success in H at 2. simpl Keywords.db_error in H at 2. lia.
Qed.

(** The counter [no_keywords_found] stays at zero for every batch. *)
Lemma keywords_never_empty (tmdb : string -> http_answer)
    (execute_update_fails : assignment -> Z -> bool)
    (titles : list row) (dry_run : bool) :
  Keywords.no_keywords_found (Keywords.tally tmdb execute_update_fails dry_run titles) = 0.
Proof. unfold Keywords.tally. now rewrite tally_no_keywords_found. Qed.

(** ** C1 *)

(** C1, at the scenario of three rows (two keywords listed, an empty list,
    a failed request), run for real: the fetch returns [None] for the empty
    list exactly as for the failed request, and the statistics are
    [total = 3], [success = 1], [no_keywords_found = 0], [api_error = 2],
    [db_error = 0] (where the claim has one empty and one error). *)
Theorem empty_list_counted_as_api_error :
  fst (Keywords.fetch_tmdb_keywords Sample.catalogue 102 "movie" Sample.start) = Return None
  /\ fst (Keywords.fetch_tmdb_keywords Sample.catalogue 103 "movie" Sample.start) = Return None
  /\ fst (Keywords.backfill_keywords_batch Sample.catalogue Sample.takes_all
            [Sample.heat; Sample.blank; Sample.gone] false Sample.start)
     = Return (Keywords.Stats 3 1 0 2 0).
Proof. repeat split; vm_compute; reflexivity. Qed.

(** ** C2 *)

(** C2, at a batch whose first two fetches give nothing to store: the two
    requests that follow them are sent with no sleep in between; the only
    sleep of the run comes after the one update.  The overview loop does the
    same. *)
Theorem no_sleep_after_failed_fetch :
  log (snd (Keywords.backfill_keywords_batch Sample.catalogue Sample.takes_all
              [Sample.gone; Sample.blank; Sample.heat] false Sample.start))
  = [HttpGet "https://api.themoviedb.org/3/movie/103/keywords";
     HttpGet "https://api.themoviedb.org/3/movie/102/keywords";
     HttpGet "https://api.themoviedb.org/3/movie/101/keywords";
     TableUpdate (SetKeywords ["noir"; "heist"]) 101;
     Sleep Keywords.RATE_LIMIT_DELAY]
  /\ log (snd (ThemesOverview.backfill_overviews Sample.overview_catalogue Sample.takes_all
                 [Sample.gone; Sample.blank; Sample.heat] false Sample.start))
  = [HttpGet "https://api.themoviedb.org/3/movie/103";
     HttpGet "https://api.themoviedb.org/3/movie/102";
     HttpGet "https://api.themoviedb.org/3/movie/101";
     TableUpdate (SetOverview "A heist goes wrong.") 101;
     Sleep ThemesOverview.TMDB_RATE_LIMIT_DELAY].
Proof. split; vm_compute; reflexivity. Qed.

(** ** C3 *)

(** C3 as stated fails for [backfill_themes]: without a client (or with
    [use_claude = False]) it returns before the loop, so a batch of one row
    has [total = 1] and every counter of outcomes at zero. *)
Lemma themes_without_client_count_nothing :
  ~ (forall (fails : assignment -> Z -> bool) (claude : option (string -> completion))
            (titles : list row) (dry_run use_claude : bool) (w : world)
            (st : ThemesOverview.ThemeStats.t) (w' : world),
        ThemesOverview.backfill_themes fails claude titles dry_run use_claude w = (Return st, w') ->
        ThemesOverview.ThemeStats.outcomes st = length titles).
Proof.
  intros H.
  specialize (H Sample.takes_all None [Sample.drama] false true Sample.start
                (ThemesOverview.ThemeStats.Make 1 0 0 0) Sample.start eq_refl).
  discriminate H.
Qed.

(** C3, amended: the keywords loop and the overview loop count exactly one
    outcome per row, so the counters of outcomes add up to the length of the
    batch, which is also [total]; the themes loop does so when it is enabled
    and has a client; with [use_claude = False] or without a client it
    returns at once with [total] set and every counter at zero. *)
Theorem one_outcome_per_row :
  (forall tmdb fails titles dry_run w,
      let st := Keywords.tally tmdb fails dry_run titles in
      fst (Keywords.backfill_keywords_batch tmdb fails titles dry_run w) = Return st
      /\ Keywords.outcomes st = length titles
      /\ Keywords.total st = length titles)
  /\ (forall tmdb fails titles dry_run w,
      let st := ThemesOverview.tally_overviews tmdb fails dry_run titles in
      fst (ThemesOverview.backfill_overviews tmdb fails titles dry_run w) = Return st
      /\ ThemesOverview.OverviewStats.outcomes st = length titles
      /\ ThemesOverview.OverviewStats.total st = length titles)
  /\ (forall fails client titles dry_run w,
      let st := ThemesOverview.tally_themes fails (Some client) dry_run titles in
      fst (ThemesOverview.backfill_themes fails (Some client) titles dry_run true w) = Return st
      /\ ThemesOverview.ThemeStats.outcomes st = length titles
      /\ ThemesOverview.ThemeStats.total st = length titles)
  /\ (forall fails claude titles dry_run w,
      ThemesOverview.backfill_themes fails claude titles dry_run false w
      = (Return (ThemesOverview.ThemeStats.Make (length titles) 0 0 0), w))
  /\ (forall fails titles dry_run use_claude w,
      ThemesOverview.backfill_themes fails None titles dry_run use_claude w
      = (Return (ThemesOverview.ThemeStats.Make (length titles) 0 0 0), w)).
Proof.
  split; [|split; [|split; [|split]]].
  - intros tmdb fails titles dry_run w. cbv zeta. unfold Keywords.tally.
    rewrite backfill_keywords_batch_run, tally_outcomes, tally_total.
    repeat split.
  - intros tmdb fails titles dry_run w. cbv zeta. unfold ThemesOverview.tally_overviews.
    rewrite backfill_overviews_run.
    destruct (tally_overview_outcomes tmdb fails dry_run titles
                (ThemesOverview.OverviewStats.Make (length titles) 0 0 0)) as [-> ->].
    repeat split.
  - intros fails client titles dry_run w. cbv zeta. unfold ThemesOverview.tally_themes.
    rewrite backfill_themes_run.
    destruct (tally_themes_outcomes fails (Some client) dry_run titles
                (ThemesOverview.ThemeStats.Make (length titles) 0 0 0)) as [-> ->].
    repeat split.
  - intros. now rewrite backfill_themes_run.
  - intros. rewrite backfill_themes_run.
    unfold ThemesOverview.themes_enabled. now destruct use_claude.
Qed.

(** ** C4 *)

(** The test [t and len(t) > 2 and len(t) < 50] is the test on the length
    alone: a string longer than two characters is not empty. *)
Lemma keeps_length (t : string) :
  ThemesOverview.keeps t = Nat.ltb 2 (String.length t) && Nat.ltb (String.length t) 50.
Proof. unfold ThemesOverview.keeps. now destruct t. Qed.

Lemma keeps_between (t : string) :
  ThemesOverview.keeps t = true <-> 2 < String.length t < 50.
Proof.
  rewrite keeps_length, andb_true_iff, !Nat.ltb_lt. tauto.
Qed.

Lemma In_take {A} (x : A) (n : nat) (l : list A) : In x (take n l) -> In x l.
Proof.
  intros H. rewrite <- (firstn_skipn n l). apply in_or_app. now left.
Qed.

(** The generation hands back nothing when no tag survives. *)
Lemma generated_none_of_answer (client : string -> completion) (t : row)
    (prompt text : string) (rest : list string) :
  ThemesOverview.prompt_for (Some client) t = Some prompt ->
  client prompt = Message (text :: rest) ->
  ThemesOverview.accepted_themes text = None ->
  ThemesOverview.generated (Some client) t = None.
Proof.
  intros Hp Hc Ha. unfold ThemesOverview.generated. rewrite Hp, Hc. exact Ha.
Qed.

(** C4 as stated fails in its last part: a row whose answer has no tag of
    an accepted length is counted under [error], exactly as a row whose call
    to the model failed; no counter of the themes loop sets it apart. *)
Lemma zero_tags_counted_as_error :
  ThemesOverview.accepted_themes "a, xx" = None
  /\ fst (ThemesOverview.backfill_themes Sample.takes_all (Some (Sample.answers "a, xx"))
            [Sample.drama] false true Sample.start)
     = Return (ThemesOverview.ThemeStats.Make 1 0 0 1)
  /\ fst (ThemesOverview.backfill_themes Sample.takes_all (Some Sample.failing)
            [Sample.drama] false true Sample.start)
     = Return (ThemesOverview.ThemeStats.Make 1 0 0 1).
Proof. repeat split; vm_compute; reflexivity. Qed.

(** C4, amended: the accepted tags are the pieces between commas, stripped,
    whose length is strictly between 2 and 50, in order, cut to the first
    five; the sample gives ["revenge"; "redemption"]; when no piece survives
    the generation returns [None] and the row is counted under [error]. *)
Theorem accepted_themes_rule :
  (forall text,
      let kept :=
        List.filter (fun t => Nat.ltb 2 (String.length t) && Nat.ltb (String.length t) 50)
                    (ThemesOverview.candidates text) in
      ThemesOverview.accepted_themes text
      = match kept with [] => None | _ :: _ => Some (take 5 kept) end)
  /\ (forall text tags,
      ThemesOverview.accepted_themes text = Some tags ->
      tags <> [] /\ length tags <= 5
      /\ Forall (fun t => 2 < String.length t < 50 /\ In t (ThemesOverview.candidates text))
                tags)
  /\ ThemesOverview.accepted_themes Sample.raw_tags = Some ["revenge"; "redemption"]
  /\ (forall fails client dry_run st t w prompt text rest,
      truthy_opt_str (overview t) = true ->
      ThemesOverview.prompt_for (Some client) t = Some prompt ->
      client prompt = Message (text :: rest) ->
      ThemesOverview.accepted_themes text = None ->
      ThemesOverview.process_themes fails (Some client) dry_run st t w
      = (Return (ThemesOverview.ThemeStats.incr_error st),
         World (table w) (log w ++ [MessagesCreate prompt]))).
Proof.
  split; [|split; [|split]].
  - intros text. cbv zeta. unfold ThemesOverview.accepted_themes.
    rewrite (filter_ext _ _ keeps_length).
    now destruct (List.filter _ _).
  - intros text tags. unfold ThemesOverview.accepted_themes.
    destruct (List.filter ThemesOverview.keeps (ThemesOverview.candidates text))
      as [|k ks] eqn:Hkept; [discriminate|].
    intros H. change (Some (take 5 (k :: ks)) = Some tags) in H. injection H as <-.
    split; [discriminate|]. split.
    + apply (firstn_le_length 5 (k :: ks)).
    + apply Forall_forall. intros x Hx.
      apply list_elem_of_In, (In_take x 5 (k :: ks)) in Hx.
      rewrite <- Hkept in Hx. apply filter_In in Hx. destruct Hx as [Hin Hk].
      split; [now apply keeps_between|exact Hin].
  - vm_compute. reflexivity.
  - intros fails client dry_run st t w prompt text rest Hov Hp Hc Ha.
    rewrite process_themes_run.
    unfold ThemesOverview.themes_outcome, ThemesOverview.themes_table,
      ThemesOverview.themes_events.
    rewrite Hov, Hp, (generated_none_of_answer client t prompt text rest Hp Hc Ha).
    cbn [negb]. now rewrite app_nil_r.
Qed.

Lemma accepted_themes_rule_witness :
  ThemesOverview.accepted_themes "a, xx" = None
  /\ fst (ThemesOverview.process_themes Sample.takes_all (Some (Sample.answers "a, xx")) false
            (ThemesOverview.ThemeStats.Make 1 0 0 0) Sample.drama Sample.start)
     = Return (ThemesOverview.ThemeStats.Make 1 0 0 1).
Proof.
  split; [reflexivity|].
  rewrite (proj2 (proj2 (proj2 accepted_themes_rule)) Sample.takes_all
             (Sample.answers "a, xx") false (ThemesOverview.ThemeStats.Make 1 0 0 0)
             Sample.drama Sample.start
             (ThemesOverview.prompt_of "Hope" "A banker is sent to prison and keeps hoping."
                "Drama/Crime")
             "a, xx" []); reflexivity.
Defined.

(** ** C5 *)

(** A stand-in row with the two fields a fetch reads. *)
Lemma fetch_tmdb_keywords_value (tmdb : string -> http_answer) (tmdb_id : Z) (kind : string)
    (w : world) :
  Keywords.fetch_tmdb_keywords tmdb tmdb_id kind w =
  (Return (match tmdb (Keywords.keywords_url tmdb_id kind) with
           | HttpFailed => None
           | HttpJson data =>
               match Keywords.extract_keywords kind data with
               | Return r => r
               | Raise _ => None
               end
           end),
   World (table w) (log w ++ [HttpGet (Keywords.keywords_url tmdb_id kind)])).
Proof.
  exact (fetch_tmdb_keywords_run tmdb (Row tmdb_id "" kind 0 None None None None) w).
Qed.

Lemma names_under_object (key : string) (members : list (string * json)) :
  match Keywords.names_under key (JObject members) with
  | Return keywords => Keywords.some_if_any keywords
  | Raise _ => None
  end = Keywords.listed key members.
Proof.
  unfold Keywords.names_under, Keywords.listed, dict_get.
  destruct (lookup_member key members) as [v|]; reflexivity.
Qed.

(** The key a fetch reads: for kind ["movie"] it returns what the answer
    lists under [keywords], for any other kind (["tv"], ["series"]) what it
    lists under [results]; when the answer lacks that key it returns [None];
    and whatever the catalogue answers, it returns and does not raise.
    [None] is also what the fetch returns for a failed request. *)
Lemma keywords_read_by_kind :
  (forall tmdb tmdb_id members w,
      tmdb (Keywords.keywords_url tmdb_id "movie") = HttpJson (JObject members) ->
      fst (Keywords.fetch_tmdb_keywords tmdb tmdb_id "movie" w)
      = Return (Keywords.listed "keywords" members))
  /\ (forall tmdb tmdb_id kind members w,
      kind <> "movie" ->
      tmdb (Keywords.keywords_url tmdb_id kind) = HttpJson (JObject members) ->
      fst (Keywords.fetch_tmdb_keywords tmdb tmdb_id kind w)
      = Return (Keywords.listed "results" members))
  /\ (forall key members,
      lookup_member key members = None -> Keywords.listed key members = None)
  /\ (forall tmdb tmdb_id kind w,
      exists r w', Keywords.fetch_tmdb_keywords tmdb tmdb_id kind w = (Return r, w')).
Proof.
  split; [|split; [|split]].
  - intros tmdb tmdb_id members w H. rewrite fetch_tmdb_keywords_value, H. cbn [fst].
    unfold Keywords.extract_keywords. cbn [String.eqb Ascii.eqb Bool.eqb andb].
    rewrite <- names_under_object.
    now destruct (Keywords.names_under _ _).
  - intros tmdb tmdb_id kind members w Hk H. rewrite fetch_tmdb_keywords_value, H. cbn [fst].
    unfold Keywords.extract_keywords. apply String.eqb_neq in Hk. rewrite Hk.
    rewrite <- names_under_object.
    now destruct (Keywords.names_under _ _).
  - intros key members H. unfold Keywords.listed. now rewrite H.
  - intros. rewrite fetch_tmdb_keywords_value. eauto.
Qed.

Lemma keywords_read_by_kind_witness :
  fst (Keywords.fetch_tmdb_keywords Sample.catalogue 101 "movie" Sample.start)
  = Return (Some ["noir"; "heist"])
  /\ ("series" <> "movie"
      /\ fst (Keywords.fetch_tmdb_keywords Sample.series_catalogue 1399 "series" Sample.start)
         = Return (Some ["war"]))
  /\ (lookup_member "keywords" Sample.series_body = None
      /\ Keywords.listed "keywords" Sample.series_body = None).
Proof.
  split; [|split; [split; [discriminate|]|split; [reflexivity|]]].
  - exact (proj1 keywords_read_by_kind Sample.catalogue 101%Z _ Sample.start eq_refl).
  - exact (proj1 (proj2 keywords_read_by_kind) Sample.series_catalogue 1399%Z "series" _
             Sample.start ltac:(discriminate) eq_refl).
  - exact (proj1 (proj2 (proj2 keywords_read_by_kind)) "keywords" Sample.series_body eq_refl).
Defined.

(** C5, at an answer that lacks the key of its kind: the second film is
    answered with a dictionary without [keywords], a series with a
    dictionary without [results].  Neither fetch raises, and each reads the
    default list of its own key; but finding it empty, the fetch returns
    [None], the value its docstring keeps for an error and its two [except]
    branches return.  The loop cannot tell the two apart: it counts the film
    under [api_error] and leaves [no_keywords_found] at zero, exactly as it
    does when the request for the film fails. *)
Theorem missing_key_counted_as_api_error :
  Sample.keyless_catalogue (Keywords.keywords_url 102 "movie")
  = HttpJson (JObject [("id", JNumber 102)])
  /\ fst (Keywords.fetch_tmdb_keywords Sample.keyless_catalogue 102 "movie" Sample.start)
     = Return None
  /\ fst (Keywords.fetch_tmdb_keywords Sample.silent_catalogue 102 "movie" Sample.start)
     = Return None
  /\ fst (Keywords.fetch_tmdb_keywords Sample.mixed_catalogue 7 "tv" Sample.start)
     = Return None
  /\ fst (Keywords.backfill_keywords_batch Sample.keyless_catalogue Sample.takes_all
            [Sample.blank] false Sample.start)
     = Return (Keywords.Stats 1 0 0 1 0)
  /\ fst (Keywords.backfill_keywords_batch Sample.silent_catalogue Sample.takes_all
            [Sample.blank] false Sample.start)
     = Return (Keywords.Stats 1 0 0 1 0).
Proof. repeat split; vm_compute; reflexivity. Qed.

(** ** C6 *)

(** Without a client no row has tags to store. *)
Lemma enrichable_without_client (titles : list row) :
  List.filter (ThemesOverview.enrichable None) titles = [].
Proof.
  induction titles as [|t titles IH]; [reflexivity|].
  cbn [List.filter]. unfold ThemesOverview.enrichable at 1, ThemesOverview.generated.
  now rewrite andb_false_r.
Qed.

(** C6: in a dry run the table is left as it was and no update is sent to
    it, whatever the table would have answered, and [success] counts every
    row whose fetch (or generation) gave a value to store; for the keywords
    loop and for the themes loop. *)
Theorem dry_run_never_updates :
  (forall tmdb fails titles w,
      let r := Keywords.backfill_keywords_batch tmdb fails titles true w in
      let st := Keywords.tally tmdb fails true titles in
      fst r = Return st
      /\ table (snd r) = table w
      /\ updates (log (snd r)) = updates (log w)
      /\ Keywords.success st = length (List.filter (Keywords.enrichable tmdb) titles))
  /\ (forall fails claude titles w,
      let r := ThemesOverview.backfill_themes fails claude titles true true w in
      exists st,
        fst r = Return st
        /\ table (snd r) = table w
        /\ updates (log (snd r)) = updates (log w)
        /\ ThemesOverview.ThemeStats.success st
           = length (List.filter (ThemesOverview.enrichable claude) titles)).
Proof.
  split.
  - intros tmdb fails titles w. cbv zeta. rewrite backfill_keywords_batch_run.
    cbn [fst snd table log]. unfold Keywords.tally.
    rewrite table_after_dry, updates_app, updates_events_of_dry, app_nil_r, tally_success_dry.
    repeat split.
  - intros fails claude titles w. cbv zeta. rewrite backfill_themes_run.
    unfold ThemesOverview.themes_enabled. destruct claude as [client|]; cbn [andb bool_decide].
    + rewrite bool_decide_eq_true_2 by eauto. eexists. cbn [fst snd table log].
      rewrite themes_table_dry, updates_app, updates_themes_events_dry, app_nil_r.
      rewrite tally_themes_success_dry. repeat split.
    + rewrite bool_decide_eq_false_2 by (intros [? [=]]). eexists. cbn [fst snd].
      rewrite enrichable_without_client. repeat split.
Qed.

(** ** C7 *)

(** What is caught: the update returns [False] when the table refuses it
    and [True] otherwise, and never raises; the fetch never raises, whatever
    the catalogue answers; and over rows that have a popularity the loop
    returns its statistics, having sent the request of every row in the
    order of the batch and counted one outcome per row, whichever fetches
    and updates failed. *)
Lemma errors_stay_in_their_pass :
  (forall fails title_id keywords w,
      Keywords.update_keywords_in_db fails title_id keywords w
      = (Return (negb (fails (SetKeywords keywords) title_id)),
         World (if fails (SetKeywords keywords) title_id then table w
                else alter (assign (SetKeywords keywords)) title_id (table w))
               (log w ++ [TableUpdate (SetKeywords keywords) title_id])))
  /\ (forall tmdb tmdb_id kind w,
      exists r,
        Keywords.fetch_tmdb_keywords tmdb tmdb_id kind w
        = (Return r, World (table w) (log w ++ [HttpGet (Keywords.keywords_url tmdb_id kind)])))
  /\ (forall tmdb fails titles dry_run w,
      exists st w',
        Keywords.backfill_keywords_batch tmdb fails titles dry_run w = (Return st, w')
        /\ urls (log w')
           = urls (log w) ++ map (fun t => Keywords.keywords_url (id t) (kind t)) titles
        /\ Keywords.outcomes st = length titles).
Proof.
  split; [|split].
  - intros. apply update_keywords_in_db_run.
  - intros. rewrite fetch_tmdb_keywords_value. eauto.
  - intros tmdb fails titles dry_run w. rewrite backfill_keywords_batch_run.
    do 2 eexists. split; [reflexivity|]. cbn [log]. split.
    + now rewrite urls_app, urls_events_of.
    + now rewrite tally_outcomes.
Qed.

Section KeywordsProgressFacts.

Variable tmdb : string -> http_answer.
Variable execute_update_fails : assignment -> Z -> bool.


(** With any other popularity the progress line is written and the pass
    goes on as [Keywords.process_title] has it. *)
Lemma process_title_with_popularity (dry_run : bool) (st : Keywords.stats)
    (t : KeywordsProgress.title_dict) (w : world) :
  KeywordsProgress.has_popularity t = true ->
  KeywordsProgress.process_title tmdb execute_update_fails dry_run st t w
  = Keywords.process_title tmdb execute_update_fails dry_run st
      (KeywordsProgress.as_row t) w.
Proof.
  unfold KeywordsProgress.has_popularity, KeywordsProgress.process_title,
    KeywordsProgress.get_popularity, Keywords.process_title.
  destruct (KeywordsProgress.t_popularity t); [|discriminate|]; reflexivity.
Qed.

Lemma for_each_with_popularity (dry_run : bool) (titles : list KeywordsProgress.title_dict) :
  forallb KeywordsProgress.has_popularity titles = true ->
  forall st w,
    for_each (KeywordsProgress.process_title tmdb execute_update_fails dry_run) st titles w
    = for_each (Keywords.process_title tmdb execute_update_fails dry_run) st
        (map KeywordsProgress.as_row titles) w.
Proof.
  induction titles as [|t titles IH]; intros H st w; [reflexivity|].
  cbn [forallb] in H. apply andb_true_iff in H as [Ht H].
  cbn [for_each map]. unfold bind.
  rewrite (process_title_with_popularity _ _ _ _ Ht).
  destruct (Keywords.process_title _ _ _ _ _ _) as [[st'|e] w']; [|reflexivity].
  now apply IH.
Qed.

(** A batch without a NULL popularity runs as the loop of [Keywords] over
    the same rows. *)
Lemma backfill_keywords_batch_with_popularity (dry_run : bool)
    (titles : list KeywordsProgress.title_dict) (w : world) :
  forallb KeywordsProgress.has_popularity titles = true ->
  KeywordsProgress.backfill_keywords_batch tmdb execute_update_fails titles dry_run w
  = Keywords.backfill_keywords_batch tmdb execute_update_fails
      (map KeywordsProgress.as_row titles) dry_run w.
Proof.
  intros H. unfold KeywordsProgress.backfill_keywords_batch, Keywords.backfill_keywords_batch.
  rewrite length_map. now apply for_each_with_popularity.
Qed.


End KeywordsProgressFacts.

(** C7, at a batch whose second row has a NULL popularity: an error of one
    row leaves the loop.  The select of the script asks for the popularity
    of each row and the loop reads it with [title.get("popularity", 0)],
    but the default only stands in for a missing key; the progress line
    then formats [None] with [:.1f], which raises [TypeError] outside every
    [try].  The first film is fetched, stored and slept after; the batch
    then aborts without statistics, and the second and third films are
    never asked for, in a dry run as in a real one.  With a number in place
    of the NULL the same batch returns its statistics.  A NULL in the first
    row aborts the batch before any call. *)
Theorem null_popularity_aborts_batch :
  fst (KeywordsProgress.backfill_keywords_batch Sample.catalogue Sample.takes_all
         [Sample.heat_dict; Sample.blank_dict; Sample.gone_dict] false Sample.start)
  = Raise TypeError
  /\ log (snd (KeywordsProgress.backfill_keywords_batch Sample.catalogue Sample.takes_all
                 [Sample.heat_dict; Sample.blank_dict; Sample.gone_dict] false Sample.start))
     = [HttpGet "https://api.themoviedb.org/3/movie/101/keywords";
        TableUpdate (SetKeywords ["noir"; "heist"]) 101;
        Sleep (Qmake 1 4)]
  /\ fst (KeywordsProgress.backfill_keywords_batch Sample.catalogue Sample.takes_all
            [Sample.heat_dict; Sample.blank_dict; Sample.gone_dict] true Sample.start)
     = Raise TypeError
  /\ fst (KeywordsProgress.backfill_keywords_batch Sample.catalogue Sample.takes_all
            [Sample.heat_dict;
             KeywordsProgress.TitleDict 102 "Blank" "movie"
               (KeywordsProgress.Number (Qmake 10 1));
             Sample.gone_dict] false Sample.start)
     = Return (Keywords.Stats 3 1 0 2 0)
  /\ KeywordsProgress.backfill_keywords_batch Sample.catalogue Sample.takes_all
       [Sample.blank_dict; Sample.heat_dict] false Sample.start
     = (Raise TypeError, Sample.start).
Proof. repeat split; vm_compute; reflexivity. Qed.

(** ** C8 *)

Section DryRunTwice.

Variable tmdb : string -> http_answer.
Variable execute_update_fails : assignment -> Z -> bool.
Variable execute_select : gmap Z row -> query -> result (list row).
Variables TMDB_API_KEY SUPABASE_URL SUPABASE_KEY : option string.

Local Abbreviation main :=
  (Keywords.main tmdb execute_update_fails execute_select
                 TMDB_API_KEY SUPABASE_URL SUPABASE_KEY).

(** The select never raises and leaves the table alone; the rows it
    returns depend on the table only. *)
Lemma get_titles_missing_keywords_run (limit : option Z) (w : world) :
  exists l',
    Keywords.get_titles_missing_keywords execute_select limit w
    = (Return (match execute_select (table w)
                       (Query "id, title, kind, popularity" "keywords"
                              (limit_clause limit) "popularity" true) with
               | Return rows => rows
               | Raise _ => []
               end),
       World (table w) l').
Proof.
  unfold Keywords.get_titles_missing_keywords, try_except, execute_query, bind, emit,
    get_table, lift, ret; simpl.
  destruct (execute_select _ _); eauto.
Qed.

(** The statistics printed after a batch that is not empty. *)
Lemma print_stats_returns (st : Keywords.stats) (w : world) :
  0 < Keywords.total st -> exists q, Keywords.print_stats st w = (Return q, w).
Proof.
  intros H. unfold Keywords.print_stats, bind, lift, ret, truediv.
  destruct (Keywords.total st); [lia|eauto].
Qed.

(** What [main] prints under choice 1, and the table it leaves, depend on
    the table it starts from and on nothing else of the world. *)
Lemma main_dry_run (confirm : string) (w1 w2 : world) :
  table w1 = table w2 ->
  fst (main "1" confirm w1) = fst (main "1" confirm w2)
  /\ table (snd (main "1" confirm w1)) = table w1.
Proof.
  intros Ht. unfold Keywords.main.
  destruct (negb (truthy_opt_str TMDB_API_KEY)); [now split|].
  destruct (negb (truthy_opt_str SUPABASE_URL) || negb (truthy_opt_str SUPABASE_KEY));
    [now split|].
  change (String.eqb (Py.strip "1") "1") with true. cbv iota.
  destruct (get_titles_missing_keywords_run (Some 10%Z) w1) as [l1 H1].
  destruct (get_titles_missing_keywords_run (Some 10%Z) w2) as [l2 H2].
  rewrite (bind_returns _ _ _ _ _ H1), (bind_returns _ _ _ _ _ H2), Ht.
  destruct (match execute_select (table w2) _ with Return rows => rows | Raise _ => [] end)
    as [|t titles]; [now split|].
  cbn [Py.truthy_list negb].
  rewrite !(bind_returns _ _ _ _ _ (backfill_keywords_batch_run _ _ _ _ _)).
  cbn [table log]. rewrite table_after_dry.
  set (st := foldl _ _ _).
  assert (Hpos : 0 < Keywords.total st).
  { unfold st. rewrite tally_total. simpl. lia. }
  destruct (print_stats_returns st
              (World (table w2) (l1 ++ flat_map (Keywords.events_of tmdb true) (t :: titles)))
              Hpos) as [q1 Hq1].
  destruct (print_stats_returns st
              (World (table w2) (l2 ++ flat_map (Keywords.events_of tmdb true) (t :: titles)))
              Hpos) as [q2 Hq2].
  rewrite (bind_returns _ _ _ _ _ Hq1), (bind_returns _ _ _ _ _ Hq2).
  now split.
Qed.

End DryRunTwice.

(** C8: two dry runs in a row, the second starting from the world the
    first one left, print the same statistics, and the first leaves the
    table as it found it; this for the loop over a given batch and for
    [main] under choice 1, which selects its batch from the table. *)
Theorem dry_run_twice_same_statistics :
  (forall tmdb fails titles w,
      let first := Keywords.backfill_keywords_batch tmdb fails titles true w in
      let second := Keywords.backfill_keywords_batch tmdb fails titles true (snd first) in
      table (snd first) = table w /\ fst second = fst first)
  /\ (forall tmdb fails select key url skey confirm w,
      let first := Keywords.main tmdb fails select key url skey "1" confirm w in
      let second := Keywords.main tmdb fails select key url skey "1" confirm (snd first) in
      table (snd first) = table w /\ fst second = fst first).
Proof.
  split.
  - intros tmdb fails titles w. cbv zeta. rewrite !backfill_keywords_batch_run.
    cbn [fst snd table]. now rewrite table_after_dry.
  - intros tmdb fails select key url skey confirm w. cbv zeta.
    destruct (main_dry_run tmdb fails select key url skey confirm w w eq_refl) as [_ Ht].
    split; [exact Ht|].
    now destruct (main_dry_run tmdb fails select key url skey confirm _ w Ht) as [-> _].
Qed.

(** ** C9 *)

Lemma fetch_tmdb_overview_log (tmdb : string -> http_answer) (tmdb_id : Z) (k : string)
    (w : world) :
  log (snd (ThemesOverview.fetch_tmdb_overview tmdb tmdb_id k w))
  = log w ++ [HttpGet (ThemesOverview.overview_url tmdb_id k)].
Proof.
  pose proof (fetch_tmdb_overview_run tmdb (Row tmdb_id "" k 0 None None None None) w) as H.
  cbn [id kind] in H. now rewrite H.
Qed.

(** C9: for every kind other than ["movie"] (["series"], the empty string,
    anything else) both fetchers ask the [tv] address, the request is sent
    without any check of the kind, and the keywords are read from the member
    [results]: when the [tv] address answers with a dictionary, the fetch
    returns the names of the list that dictionary holds under [results],
    whatever it holds under [keywords]. *)
Theorem other_kinds_go_to_tv (tmdb_id : Z) (kind : string) :
  kind <> "movie" ->
  Keywords.keywords_url tmdb_id kind
  = ("https://api.themoviedb.org/3/tv/" ++ Py.str_of_int tmdb_id ++ "/keywords")%string
  /\ ThemesOverview.overview_url tmdb_id kind
     = ("https://api.themoviedb.org/3/tv/" ++ Py.str_of_int tmdb_id)%string
  /\ (forall data,
      Keywords.extract_keywords kind data
      = match Keywords.names_under "results" data with
        | Return keywords => Return (Keywords.some_if_any keywords)
        | Raise e => Raise e
        end)
  /\ (forall tmdb w,
      log (snd (Keywords.fetch_tmdb_keywords tmdb tmdb_id kind w))
      = log w ++ [HttpGet ("https://api.themoviedb.org/3/tv/" ++ Py.str_of_int tmdb_id
                           ++ "/keywords")%string])
  /\ (forall tmdb w,
      log (snd (ThemesOverview.fetch_tmdb_overview tmdb tmdb_id kind w))
      = log w ++ [HttpGet ("https://api.themoviedb.org/3/tv/" ++ Py.str_of_int tmdb_id)%string])
  /\ (forall tmdb members w,
      tmdb ("https://api.themoviedb.org/3/tv/" ++ Py.str_of_int tmdb_id ++ "/keywords")%string
      = HttpJson (JObject members) ->
      fst (Keywords.fetch_tmdb_keywords tmdb tmdb_id kind w)
      = Return match lookup_member "results" members with
               | Some (JArray items) =>
                   if forallb has_name items
                   then match omap kw_name items with
                        | [] => None
                        | name :: rest => Some (name :: rest)
                        end
                   else None
               | _ => None
               end).
Proof.
  intros Hk. apply String.eqb_neq in Hk.
  assert (Hu : Keywords.keywords_url tmdb_id kind
               = ("https://api.themoviedb.org/3/tv/" ++ Py.str_of_int tmdb_id ++ "/keywords")%string)
    by (unfold Keywords.keywords_url; now rewrite Hk).
  assert (Ho : ThemesOverview.overview_url tmdb_id kind
               = ("https://api.themoviedb.org/3/tv/" ++ Py.str_of_int tmdb_id)%string)
    by (unfold ThemesOverview.overview_url; now rewrite Hk).
  split; [exact Hu|]. split; [exact Ho|]. split; [|split; [|split]].
  - intros data. unfold Keywords.extract_keywords. now rewrite Hk.
  - intros tmdb w. now rewrite fetch_tmdb_keywords_value, Hu.
  - intros tmdb w. now rewrite fetch_tmdb_overview_log, Ho.
  - intros tmdb members w H. rewrite fetch_tmdb_keywords_value, Hu, H. cbn [fst].
    f_equal. unfold Keywords.extract_keywords. rewrite Hk.
    unfold Keywords.names_under, dict_get.
    destruct (lookup_member "results" members) as [[| |s|items|[|m ms]]|];
      cbn [default from_option Datatypes.id names]; try reflexivity.
    + destruct s; reflexivity.
    + rewrite names_of_items_all_or_nothing.
      destruct (forallb has_name items); [|reflexivity].
      unfold Keywords.some_if_any. now destruct (omap kw_name items).
Qed.

Lemma other_kinds_go_to_tv_witness :
  "series" <> "movie"
  /\ Keywords.keywords_url 1399 "series" = "https://api.themoviedb.org/3/tv/1399/keywords"
  /\ ThemesOverview.overview_url 1399 "series" = "https://api.themoviedb.org/3/tv/1399"
  /\ fst (Keywords.fetch_tmdb_keywords Sample.mixed_catalogue 1399 "series" Sample.start)
     = Return (Some ["war"; "throne"])
  /\ "" <> "movie"
  /\ Keywords.keywords_url 1399 "" = "https://api.themoviedb.org/3/tv/1399/keywords"
  /\ fst (Keywords.fetch_tmdb_keywords Sample.mixed_catalogue 7 "" Sample.start)
     = Return None.
Proof.
  split; [discriminate|]. split; [|split; [|split; [|split; [discriminate|split]]]].
  - exact (proj1 (other_kinds_go_to_tv 1399 "series" ltac:(discriminate))).
  - exact (proj1 (proj2 (other_kinds_go_to_tv 1399 "series" ltac:(discriminate)))).
  - rewrite (proj2 (proj2 (proj2 (proj2 (proj2
               (other_kinds_go_to_tv 1399 "series" ltac:(discriminate))))))
               Sample.mixed_catalogue Sample.mixed_body Sample.start);
      vm_compute; reflexivity.
  - exact (proj1 (other_kinds_go_to_tv 1399 "" ltac:(discriminate))).
  - rewrite (proj2 (proj2 (proj2 (proj2 (proj2
               (other_kinds_go_to_tv 7 "" ltac:(discriminate))))))
               Sample.mixed_catalogue
               [("id", JNumber 7); ("keywords", JArray [Keyword 9807 (Some "noir")])]
               Sample.start);
      vm_compute; reflexivity.
Defined.

(** ** C10 *)

(** C10: the printer of the keywords script divides [success] by [total]
    whatever [total] is, so on statistics with [total = 0], those of an empty
    batch among them, it raises [ZeroDivisionError]; the printer of the other
    script computes a rate exactly when [total] is positive and never
    raises. *)
Theorem print_stats_division :
  (forall success no_keywords_found api_error db_error w,
      Keywords.print_stats (Keywords.Stats 0 success no_keywords_found api_error db_error) w
      = (Raise ZeroDivisionError, w))
  /\ (forall tmdb fails dry_run w,
      let r := Keywords.backfill_keywords_batch tmdb fails [] dry_run w in
      fst r = Return (Keywords.Stats 0 0 0 0 0)
      /\ Keywords.print_stats (Keywords.Stats 0 0 0 0 0) (snd r)
         = (Raise ZeroDivisionError, snd r))
  /\ (forall s operation w,
      exists rate,
        ThemesOverview.print_stats s operation w = (Return rate, w)
        /\ (rate = None <-> ThemesOverview.total_of s = 0)).
Proof.
  split; [|split].
  - reflexivity.
  - intros. split; reflexivity.
  - intros s operation w. unfold ThemesOverview.print_stats.
    destruct (ThemesOverview.total_of s) as [|n] eqn:Hn; cbn [Nat.ltb Nat.leb].
    + eexists. split; [reflexivity|]. tauto.
    + unfold bind, lift, ret, truediv. eexists. split; [reflexivity|].
      split; [discriminate|lia].
Qed.

(** * Further properties *)

(** ** Strings: [strip], [split], [join] *)

Lemma append_nil_l (s : string) : ("" ++ s)%string = s.
Proof. reflexivity. Qed.

Lemma append_String (c : ascii) (s t : string) :
  (String c s ++ t)%string = String c (s ++ t).
Proof. reflexivity. Qed.

(** [String.append] is kept folded by [simpl]; these two equations unfold
    it one step at a time. *)
Ltac unfold_append := rewrite ?append_String, ?append_nil_l.

Lemma append_nil_r (s : string) : (s ++ "")%string = s.
Proof. induction s as [|c s IH]; unfold_append; [reflexivity|now rewrite IH]. Qed.

Lemma append_assoc (a b c : string) : ((a ++ b) ++ c)%string = (a ++ (b ++ c))%string.
Proof. induction a as [|x a IH]; unfold_append; [reflexivity|now rewrite IH]. Qed.

Lemma rev_app_append (s1 s2 : string) :
  String.rev_app s1 s2 = (String.rev s1 ++ s2)%string.
Proof.
  unfold String.rev. revert s2. induction s1 as [|c s1 IH]; intros s2; simpl; [reflexivity|].
  rewrite (IH (String c s2)), (IH (String c "")), append_assoc. reflexivity.
Qed.

Lemma rev_String (c : ascii) (s : string) :
  String.rev (String c s) = (String.rev s ++ String c "")%string.
Proof. unfold String.rev at 1. simpl. apply rev_app_append. Qed.

Lemma rev_append (a b : string) :
  String.rev (a ++ b) = (String.rev b ++ String.rev a)%string.
Proof.
  induction a as [|c a IH]; unfold_append.
  - now rewrite append_nil_r.
  - now rewrite !rev_String, IH, append_assoc.
Qed.

Lemma rev_involutive (s : string) : String.rev (String.rev s) = s.
Proof.
  induction s as [|c s IH]; [reflexivity|].
  now rewrite rev_String, rev_append, IH.
Qed.

Lemma all_space_append (a b : string) :
  Py.all_space (a ++ b) = Py.all_space a && Py.all_space b.
Proof.
  induction a as [|c a IH]; unfold_append; simpl; [reflexivity|]. now rewrite IH, andb_assoc.
Qed.

Lemma all_space_rev (s : string) : Py.all_space (String.rev s) = Py.all_space s.
Proof.
  induction s as [|c s IH]; [reflexivity|].
  rewrite rev_String, all_space_append, IH. simpl. rewrite andb_true_r. apply andb_comm.
Qed.

(** [lstrip] drops a run of white space from the front and nothing else. *)
Lemma lstrip_decompose (s : string) :
  exists p, s = (p ++ Py.lstrip s)%string /\ Py.all_space p = true.
Proof.
  induction s as [|c s [p [Hs Hp]]]; simpl.
  - now exists "".
  - destruct (Py.isspace c) eqn:Hc.
    + exists (String c p). unfold_append. simpl. rewrite Hc, Hp.
      split; [now f_equal|reflexivity].
    + exists "". split; reflexivity.
Qed.

Lemma lstrip_clean (s : string) : Py.starts_clean (Py.lstrip s).
Proof.
  induction s as [|c s IH]; simpl; [exact I|].
  destruct (Py.isspace c) eqn:Hc; [exact IH|exact Hc].
Qed.

Lemma lstrip_id (s : string) : Py.starts_clean s -> Py.lstrip s = s.
Proof. destruct s as [|c s]; simpl; [reflexivity|]. now intros ->. Qed.

Lemma rstrip_decompose (s : string) :
  exists p, s = (Py.rstrip s ++ p)%string /\ Py.all_space p = true.
Proof.
  destruct (lstrip_decompose (String.rev s)) as [p [Hs Hp]].
  exists (String.rev p). split; [|now rewrite all_space_rev].
  unfold Py.rstrip. rewrite <- rev_append, <- Hs. now rewrite rev_involutive.
Qed.

Lemma rstrip_ends_clean (s : string) : Py.ends_clean (Py.rstrip s).
Proof.
  unfold Py.ends_clean, Py.rstrip. rewrite rev_involutive. apply lstrip_clean.
Qed.

Lemma rstrip_starts_clean (s : string) : Py.starts_clean s -> Py.starts_clean (Py.rstrip s).
Proof.
  intros H. destruct (rstrip_decompose s) as [p [Hs _]].
  destruct (Py.rstrip s) as [|c r]; [exact I|].
  rewrite Hs, append_String in H. exact H.
Qed.

Lemma rstrip_id (s : string) : Py.ends_clean s -> Py.rstrip s = s.
Proof.
  intros H. unfold Py.rstrip. rewrite (lstrip_id _ H). apply rev_involutive.
Qed.

(** The result of [strip] has no white space at either end, and stripping
    it again changes nothing. *)
Lemma strip_clean (s : string) :
  Py.starts_clean (Py.strip s) /\ Py.ends_clean (Py.strip s).
Proof.
  unfold Py.strip. split.
  - apply rstrip_starts_clean, lstrip_clean.
  - apply rstrip_ends_clean.
Qed.

Lemma strip_id (s : string) : Py.starts_clean s -> Py.ends_clean s -> Py.strip s = s.
Proof. intros H1 H2. unfold Py.strip. now rewrite (lstrip_id _ H1), (rstrip_id _ H2). Qed.

Lemma strip_idempotent (s : string) : Py.strip (Py.strip s) = Py.strip s.
Proof. destruct (strip_clean s). now apply strip_id. Qed.

(** [strip] keeps a middle part of the string. *)
Lemma strip_decompose (s : string) :
  exists p q, s = (p ++ Py.strip s ++ q)%string
              /\ Py.all_space p = true /\ Py.all_space q = true.
Proof.
  destruct (lstrip_decompose s) as [p [Hs Hp]].
  destruct (rstrip_decompose (Py.lstrip s)) as [q [Hl Hq]].
  exists p, q. unfold Py.strip. now rewrite <- Hl.
Qed.

Lemma contains_append (c : ascii) (a b : string) :
  Py.contains c (a ++ b) = Py.contains c a || Py.contains c b.
Proof.
  induction a as [|x a IH]; unfold_append; simpl; [reflexivity|]. now rewrite IH, orb_assoc.
Qed.

Lemma strip_contains (c : ascii) (s : string) :
  Py.contains c s = false -> Py.contains c (Py.strip s) = false.
Proof.
  destruct (strip_decompose s) as [p [q [Hs _]]]. intros H.
  rewrite Hs, !contains_append in H.
  apply orb_false_iff in H as [_ H]. now apply orb_false_iff in H as [H _].
Qed.

(** No piece of [split] holds the separator, and there is always a piece. *)
Lemma split_no_separator (sep : ascii) (s : string) :
  Forall (fun piece => Py.contains sep piece = false) (Py.split sep s).
Proof.
  induction s as [|c s IH]; simpl.
  - now constructor.
  - destruct (Ascii.eqb c sep) eqn:Hc.
    + now constructor.
    + destruct (Py.split sep s) as [|w ws]; [repeat constructor; simpl; now rewrite Hc|].
      inversion IH as [|? ? Hw Hws]; subst.
      constructor; [simpl; now rewrite Hc, Hw|exact Hws].
Qed.

Lemma split_not_nil (sep : ascii) (s : string) : Py.split sep s <> [].
Proof.
  destruct s as [|c s]; simpl; [discriminate|].
  destruct (Ascii.eqb c sep); [discriminate|]. now destruct (Py.split sep s).
Qed.

Lemma split_one_piece (sep : ascii) (a : string) :
  Py.contains sep a = false -> Py.split sep a = [a].
Proof.
  induction a as [|c a IH]; simpl; [reflexivity|].
  intros H. apply orb_false_iff in H as [Hc Ha]. rewrite Hc, (IH Ha). reflexivity.
Qed.

Lemma split_append_separator (sep : ascii) (a rest : string) :
  Py.contains sep a = false ->
  Py.split sep (a ++ String sep rest) = a :: Py.split sep rest.
Proof.
  induction a as [|c a IH]; unfold_append; simpl.
  - intros _. now rewrite Ascii.eqb_refl.
  - intros H. apply orb_false_iff in H as [Hc Ha]. rewrite Hc, (IH Ha). reflexivity.
Qed.

Lemma split_cons_other (sep c : ascii) (s : string) :
  Ascii.eqb c sep = false ->
  Py.split sep (String c s)
  = match Py.split sep s with
    | [] => [String c EmptyString]
    | w :: ws => String c w :: ws
    end.
Proof. intros H. simpl. now rewrite H. Qed.

Lemma rev_not_empty (s : string) : s <> "" -> String.rev s <> "".
Proof.
  intros H Hr. apply H. rewrite <- (rev_involutive s), Hr. reflexivity.
Qed.

Lemma ends_clean_append (a b : string) :
  b <> "" -> Py.ends_clean b -> Py.ends_clean (a ++ b).
Proof.
  unfold Py.ends_clean. intros Hb H. rewrite rev_append.
  pose proof (rev_not_empty b Hb) as Hr.
  destruct (String.rev b) as [|c r]; [congruence|]. rewrite append_String. exact H.
Qed.

Lemma starts_clean_append (a b : string) :
  a <> "" -> Py.starts_clean a -> Py.starts_clean (a ++ b).
Proof. destruct a as [|c a]; [congruence|]. intros _ H. rewrite append_String. exact H. Qed.

Lemma append_not_empty_l (a b : string) : a <> "" -> (a ++ b)%string <> "".
Proof. destruct a; [congruence|]. intros _. rewrite append_String. discriminate. Qed.

Lemma join_cons_cons (sep t u : string) (l : list string) :
  Py.join sep (t :: u :: l) = (t ++ sep ++ Py.join sep (u :: l))%string.
Proof. reflexivity. Qed.

Lemma join_tidy (l : list string) :
  l <> [] -> Forall ThemesOverview.tidy l ->
  Py.join ", " l <> "" /\ Py.starts_clean (Py.join ", " l) /\ Py.ends_clean (Py.join ", " l).
Proof.
  induction l as [|t l IH]; [congruence|]. intros _ Hl.
  inversion Hl as [|? ? [Ht [_ [Hs He]]] Hl']; subst.
  destruct l as [|u l]; [simpl; auto|].
  rewrite join_cons_cons.
  destruct (IH ltac:(discriminate) Hl') as [Hne [_ Hend]].
  split; [now apply append_not_empty_l|]. split.
  - now apply starts_clean_append.
  - rewrite <- append_assoc. now apply ends_clean_append.
Qed.

(** Splitting the joined text at the commas gives the first tag as it is
    and every later tag with the blank of the separator before it. *)
Lemma split_join (l : list string) (t : string) :
  Forall ThemesOverview.tidy (t :: l) ->
  Py.split "," (Py.join ", " (t :: l)) = t :: map (String " ") l.
Proof.
  revert t. induction l as [|u l IH]; intros t Hl.
  - inversion Hl as [|? ? [_ [Hc _]] _]; subst. now apply split_one_piece.
  - inversion Hl as [|? ? [_ [Hc _]] Hl']; subst.
    rewrite join_cons_cons.
    change (", " ++ Py.join ", " (u :: l))%string
      with (String "," (String " " (Py.join ", " (u :: l)))).
    rewrite (split_append_separator _ _ _ Hc). f_equal.
    rewrite (split_cons_other "," " " _ eq_refl), (IH u Hl'). reflexivity.
Qed.

Lemma strip_blank_tidy (t : string) : ThemesOverview.tidy t -> Py.strip (String " " t) = t.
Proof.
  intros [_ [_ [Hs He]]]. unfold Py.strip. simpl.
  now rewrite (lstrip_id _ Hs), (rstrip_id _ He).
Qed.

Lemma keeps_not_empty (t : string) : ThemesOverview.keeps t = true -> t <> "".
Proof. now destruct t. Qed.

(** Every candidate is a stripped piece without comma. *)
Lemma candidates_tidy (text t : string) :
  In t (ThemesOverview.candidates text) -> ThemesOverview.keeps t = true -> ThemesOverview.tidy t.
Proof.
  unfold ThemesOverview.candidates. intros Hin Hk.
  apply in_map_iff in Hin as [piece [<- Hpiece]].
  pose proof (split_no_separator "," (Py.strip text)) as Hall.
  rewrite Forall_forall in Hall. apply list_elem_of_In in Hpiece.
  specialize (Hall _ Hpiece). destruct (strip_clean piece) as [Hs He].
  repeat split; [now apply keeps_not_empty|now apply strip_contains|exact Hs|exact He].
Qed.

Lemma accepted_themes_inv (text : string) (tags : list string) :
  ThemesOverview.accepted_themes text = Some tags ->
  tags <> [] /\ length tags <= 5
  /\ Forall (fun t => ThemesOverview.keeps t = true /\ ThemesOverview.tidy t) tags.
Proof.
  unfold ThemesOverview.accepted_themes.
  destruct (List.filter ThemesOverview.keeps (ThemesOverview.candidates text))
    as [|k ks] eqn:Hkept; [discriminate|].
  intros H. change (Some (take 5 (k :: ks)) = Some tags) in H. injection H as <-.
  split; [discriminate|]. split; [apply (firstn_le_length 5 (k :: ks))|].
  apply Forall_forall. intros x Hx.
  apply list_elem_of_In, (In_take x 5 (k :: ks)) in Hx.
  rewrite <- Hkept in Hx. apply filter_In in Hx as [Hin Hk].
  split; [exact Hk|now apply (candidates_tidy text)].
Qed.

Lemma filter_all {A} (f : A -> bool) (l : list A) :
  Forall (fun x => f x = true) l -> List.filter f l = l.
Proof.
  induction 1 as [|x l Hx _ IH]; simpl; [reflexivity|]. now rewrite Hx, IH.
Qed.

(** X1: every tag that [generate_themes_with_claude] accepts holds no comma
    and has no white space at either end, so stripping it changes nothing;
    its length is between 3 and 49. *)
Theorem accepted_tags_are_tidy (text : string) (tags : list string) :
  ThemesOverview.accepted_themes text = Some tags ->
  Forall (fun t => Py.contains "," t = false
                   /\ Py.strip t = t
                   /\ 3 <= String.length t <= 49) tags.
Proof.
  intros H. destruct (accepted_themes_inv text tags H) as [_ [_ Hall]].
  eapply Forall_impl; [exact Hall|]. cbv beta.
  intros t [Hk [_ [Hc [Hs He]]]]. apply keeps_between in Hk.
  split; [exact Hc|]. split; [now apply strip_id|lia].
Qed.

Lemma accepted_tags_are_tidy_witness :
  ThemesOverview.accepted_themes " lost love ,grief,,  a b  " = Some ["lost love"; "grief"; "a b"]
  /\ Forall (fun t => Py.contains "," t = false
                      /\ Py.strip t = t
                      /\ 3 <= String.length t <= 49) ["lost love"; "grief"; "a b"].
Proof.
  split; [vm_compute; reflexivity|].
  apply (accepted_tags_are_tidy " lost love ,grief,,  a b  " ["lost love"; "grief"; "a b"]).
  vm_compute; reflexivity.
Defined.

(** X2: the accepted tags are a fixed point of the validation: joined with
    [", "], as the loop prints them, and read again, they come back the
    same. *)
Theorem accepted_themes_round_trip (text : string) (tags : list string) :
  ThemesOverview.accepted_themes text = Some tags ->
  ThemesOverview.accepted_themes (Py.join ", " tags) = Some tags.
Proof.
  intros H. destruct (accepted_themes_inv text tags H) as [Hne [Hlen Hall]].
  assert (Htidy : Forall ThemesOverview.tidy tags) by (eapply Forall_impl; [exact Hall|]; now intros t [_ Ht]).
  assert (Hkeep : Forall (fun t => ThemesOverview.keeps t = true) tags)
    by (eapply Forall_impl; [exact Hall|]; now intros t [Hk _]).
  destruct (join_tidy tags Hne Htidy) as [_ [Hs He]].
  unfold ThemesOverview.accepted_themes, ThemesOverview.candidates.
  rewrite (strip_id _ Hs He).
  destruct tags as [|t l]; [congruence|].
  rewrite (split_join l t Htidy).
  inversion Htidy as [|? ? Ht Hl]; subst.
  assert (Hmap : map Py.strip (t :: map (String " ") l) = t :: l).
  { cbn [map]. destruct Ht as [_ [_ [Hts Hte]]]. rewrite (strip_id _ Hts Hte). f_equal.
    rewrite map_map. clear -Hl. induction Hl as [|u l Hu _ IH]; [reflexivity|].
    cbn [map]. now rewrite (strip_blank_tidy u Hu), IH. }
  rewrite Hmap, (filter_all _ _ Hkeep). cbn [Py.truthy_list].
  now rewrite firstn_all2 by exact Hlen.
Qed.

Lemma accepted_themes_round_trip_witness :
  ThemesOverview.accepted_themes Sample.raw_tags = Some ["revenge"; "redemption"]
  /\ ThemesOverview.accepted_themes (Py.join ", " ["revenge"; "redemption"])
     = Some ["revenge"; "redemption"].
Proof.
  split; [vm_compute; reflexivity|].
  apply (accepted_themes_round_trip Sample.raw_tags ["revenge"; "redemption"]).
  vm_compute; reflexivity.
Defined.

(** ** The two fetchers *)

(** X3: [fetch_tmdb_keywords] never hands an empty list to its caller (an
    empty list of the catalogue comes back as [None]), so in every run of
    [backfill_keywords_batch] the counter [no_keywords_found] is still zero
    at the end: the branch that bumps it is never taken. *)
Theorem no_keywords_found_stays_zero (tmdb : string -> http_answer)
    (fails : assignment -> Z -> bool) (titles : list row) (dry_run : bool) (w : world) :
  (forall tmdb_id kind w0,
      fst (Keywords.fetch_tmdb_keywords tmdb tmdb_id kind w0) <> Return (Some []))
  /\ exists st w',
      Keywords.backfill_keywords_batch tmdb fails titles dry_run w = (Return st, w')
      /\ Keywords.no_keywords_found st = 0.
Proof.
  split.
  - intros tmdb_id kind w0. rewrite fetch_tmdb_keywords_value. cbn [fst].
    destruct (tmdb _) as [|data]; [discriminate|].
    pose proof (extract_keywords_not_empty kind data) as H.
    destruct (Keywords.extract_keywords kind data) as [r|e]; [|discriminate].
    intros [= ->]. now apply H.
  - rewrite backfill_keywords_batch_run. do 2 eexists. split; [reflexivity|].
    now rewrite tally_no_keywords_found.
Qed.

(** What [extract_overview] makes of a decoded dictionary: the stripped text
    under [overview] when that is a string with more than white space in it,
    [None] otherwise. *)
Lemma extract_overview_object (members : list (string * json)) :
  match ThemesOverview.extract_overview (JObject members) with
  | Return r => r
  | Raise _ => None
  end
  = match lookup_member "overview" members with
    | Some (JString s) => if Py.truthy_str (Py.strip s) then Some (Py.strip s) else None
    | _ => None
    end.
Proof.
  unfold ThemesOverview.extract_overview, dict_get.
  destruct (lookup_member "overview" members) as [[| |s| |]|]; reflexivity.
Qed.

Lemma extract_overview_stripped (data : json) (ov : string) :
  ThemesOverview.extract_overview data = Return (Some ov) ->
  ov <> "" /\ Py.strip ov = ov.
Proof.
  unfold ThemesOverview.extract_overview.
  destruct (dict_get data "overview" (JString "")) as [v|e]; [|discriminate].
  destruct v as [| |s| |]; try discriminate. cbn [strip_value].
  destruct (Py.strip s) as [|c r] eqn:Hs; [discriminate|].
  intros [= <-]. split; [discriminate|]. rewrite <- Hs. apply strip_idempotent.
Qed.

Lemma overview_fetched_stripped (tmdb : string -> http_answer) (t : row) (ov : string) :
  ThemesOverview.fetched tmdb t = Some ov -> ov <> "" /\ Py.strip ov = ov.
Proof.
  unfold ThemesOverview.fetched. destruct (tmdb _) as [|data]; [discriminate|].
  destruct (ThemesOverview.extract_overview data) as [r|e] eqn:He; [|discriminate].
  intros ->. now apply (extract_overview_stripped data).
Qed.

Lemma fetch_tmdb_overview_value (tmdb : string -> http_answer) (tmdb_id : Z) (k : string)
    (w : world) :
  ThemesOverview.fetch_tmdb_overview tmdb tmdb_id k w =
  (Return (match tmdb (ThemesOverview.overview_url tmdb_id k) with
           | HttpFailed => None
           | HttpJson data =>
               match ThemesOverview.extract_overview data with
               | Return r => r
               | Raise _ => None
               end
           end),
   World (table w) (log w ++ [HttpGet (ThemesOverview.overview_url tmdb_id k)])).
Proof.
  exact (fetch_tmdb_overview_run tmdb (Row tmdb_id "" k 0 None None None None) w).
Qed.

Lemma tally_not_found (tmdb : string -> http_answer) (fails : assignment -> Z -> bool)
    (dry_run : bool) (titles : list row) (st : ThemesOverview.OverviewStats.t) :
  ThemesOverview.OverviewStats.not_found
    (foldl (fun s t => ThemesOverview.count_overview
                         (ThemesOverview.overview_outcome tmdb fails dry_run t) s) st titles)
  = ThemesOverview.OverviewStats.not_found st.
Proof.
  revert st. induction titles as [|t titles IH]; intros st; cbn [foldl]; [reflexivity|].
  rewrite IH. unfold ThemesOverview.overview_outcome.
  destruct (ThemesOverview.fetched tmdb t) as [[|c ov]|] eqn:Hf; try reflexivity.
  - destruct (overview_fetched_stripped tmdb t "" Hf) as [H _]. congruence.
  - now destruct (negb dry_run && _).
Qed.

(** X4: an overview that [fetch_tmdb_overview] returns is never empty and
    has no white space at either end; an empty or blank overview of the
    catalogue comes back as [None].  So in every run of [backfill_overviews]
    the counter [not_found] is still zero at the end. *)
Theorem not_found_stays_zero (tmdb : string -> http_answer)
    (fails : assignment -> Z -> bool) (titles : list row) (dry_run : bool) (w : world) :
  (forall tmdb_id k w0,
      match fst (ThemesOverview.fetch_tmdb_overview tmdb tmdb_id k w0) with
      | Return (Some ov) => ov <> "" /\ Py.strip ov = ov
      | Return None => True
      | Raise _ => False
      end)
  /\ exists st w',
      ThemesOverview.backfill_overviews tmdb fails titles dry_run w = (Return st, w')
      /\ ThemesOverview.OverviewStats.not_found st = 0.
Proof.
  split.
  - intros tmdb_id k w0. rewrite fetch_tmdb_overview_value. cbn [fst].
    destruct (tmdb _) as [|data]; [exact I|].
    destruct (ThemesOverview.extract_overview data) as [[ov|]|e] eqn:He; try exact I.
    now apply (extract_overview_stripped data).
  - rewrite backfill_overviews_run. do 2 eexists. split; [reflexivity|].
    now rewrite tally_not_found.
Qed.

(** X5: what [fetch_tmdb_keywords] returns, for every answer of the
    catalogue: the names of the list under the key of the kind, in order,
    when the answer is a dictionary, the value under that key is a list,
    the list is not empty and every object of it has a name.  One object
    without a name loses the whole list: the fetch returns [None], as it
    does for a missing key, a value that is no list, an answer that is no
    dictionary and a failed request. *)
Theorem fetch_tmdb_keywords_result (tmdb : string -> http_answer) (tmdb_id : Z)
    (k : string) (w : world) :
  fst (Keywords.fetch_tmdb_keywords tmdb tmdb_id k w)
  = Return
      match tmdb (Keywords.keywords_url tmdb_id k) with
      | HttpJson (JObject members) =>
          match lookup_member (if String.eqb k "movie" then "keywords" else "results")
                              members with
          | Some (JArray items) =>
              if forallb has_name items
              then Keywords.some_if_any (omap kw_name items)
              else None
          | _ => None
          end
      | _ => None
      end.
Proof.
  rewrite fetch_tmdb_keywords_value. cbn [fst]. f_equal.
  destruct (tmdb _) as [|data]; [reflexivity|].
  unfold Keywords.extract_keywords, Keywords.names_under, dict_get.
  destruct data as [| | | |members]; try (now destruct (String.eqb k "movie")).
  destruct (String.eqb k "movie");
    (destruct (lookup_member _ members) as [[| |s|items|ms]|];
     cbn [default from_option Datatypes.id names];
     [reflexivity|reflexivity|now destruct s| |now destruct ms|reflexivity];
     rewrite names_of_items_all_or_nothing; now destruct (forallb _ items)).
Qed.

(** X6: what [fetch_tmdb_overview] returns, for every answer of the
    catalogue: the stripped text under [overview] when the answer is a
    dictionary and that text is a string with more than white space in it;
    [None] for a text that is empty or blank, for [null] or any other value
    under [overview], for a missing key, for an answer that is no dictionary
    and for a failed request. *)
Theorem fetch_tmdb_overview_result (tmdb : string -> http_answer) (tmdb_id : Z)
    (k : string) (w : world) :
  fst (ThemesOverview.fetch_tmdb_overview tmdb tmdb_id k w)
  = Return
      match tmdb (ThemesOverview.overview_url tmdb_id k) with
      | HttpJson (JObject members) =>
          match lookup_member "overview" members with
          | Some (JString s) => if Py.truthy_str (Py.strip s) then Some (Py.strip s) else None
          | _ => None
          end
      | _ => None
      end.
Proof.
  rewrite fetch_tmdb_overview_value. cbn [fst]. f_equal.
  destruct (tmdb _) as [|data]; [reflexivity|].
  destruct data as [| | | |members]; try reflexivity.
  apply extract_overview_object.
Qed.

(** ** Pacing *)

(** X7: a run of [backfill_keywords_batch], dry or not, sleeps once for
    every row it counts under [success] or [db_error] and never for a row it
    counts under [api_error]: the number of sleeps it adds to the log is
    [success + db_error]. *)
Theorem keywords_sleep_count (tmdb : string -> http_answer)
    (fails : assignment -> Z -> bool) (titles : list row) (dry_run : bool) (w : world) :
  exists st w',
    Keywords.backfill_keywords_batch tmdb fails titles dry_run w = (Return st, w')
    /\ sleeps (log w') = sleeps (log w) + Keywords.success st + Keywords.db_error st
    /\ Keywords.success st + Keywords.db_error st + Keywords.api_error st = length titles.
Proof.
  destruct (keywords_sleeps tmdb fails titles dry_run w) as [Hst Hsl].
  destruct (Keywords.backfill_keywords_batch tmdb fails titles dry_run w) as [r w'] eqn:Hr.
  cbn [fst snd] in Hst, Hsl. subst r. do 2 eexists. split; [reflexivity|].
  split; [exact Hsl|].
  pose proof (keywords_never_empty tmdb fails titles dry_run) as Hz.
  unfold Keywords.tally in *.
  pose proof (tally_outcomes tmdb fails dry_run titles (Keywords.Stats (length titles) 0 0 0 0))
    as Ho.
  unfold Keywords.outcomes in Ho. cbn in Ho. cbn in Hz. lia.
Qed.

Lemma sleeps_updates_flat_map {A} (ev : A -> list event) (l : list A) :
  (forall x, sleeps (ev x) = length (updates (ev x))) ->
  sleeps (flat_map ev l) = length (updates (flat_map ev l)).
Proof.
  intros H. induction l as [|x l IH]; cbn [flat_map]; [reflexivity|].
  now rewrite sleeps_app, updates_app, length_app, H, IH.
Qed.

(** X8: in a run that is not dry each of the three loops sleeps exactly once
    per update it sends to the table, whether the table takes the update or
    refuses it, and not once more: a row that sent no update is followed by
    no sleep. *)
Theorem one_sleep_per_update :
  (forall tmdb fails titles w,
      let w' := snd (Keywords.backfill_keywords_batch tmdb fails titles false w) in
      sleeps (log w') + length (updates (log w))
      = sleeps (log w) + length (updates (log w')))
  /\ (forall tmdb fails titles w,
      let w' := snd (ThemesOverview.backfill_overviews tmdb fails titles false w) in
      sleeps (log w') + length (updates (log w))
      = sleeps (log w) + length (updates (log w')))
  /\ (forall fails claude titles use_claude w,
      let w' := snd (ThemesOverview.backfill_themes fails claude titles false use_claude w) in
      sleeps (log w') + length (updates (log w))
      = sleeps (log w) + length (updates (log w'))).
Proof.
  split; [|split].
  - intros tmdb fails titles w. cbv zeta. rewrite backfill_keywords_batch_run. cbn [snd log].
    rewrite sleeps_app, updates_app, length_app, (sleeps_updates_flat_map _ titles); [lia|].
    intros t. unfold Keywords.events_of.
    destruct (Keywords.fetched tmdb t) as [[|k ks]|]; reflexivity.
  - intros tmdb fails titles w. cbv zeta. rewrite backfill_overviews_run. cbn [snd log].
    rewrite sleeps_app, updates_app, length_app, (sleeps_updates_flat_map _ titles); [lia|].
    intros t. unfold ThemesOverview.overview_events.
    destruct (ThemesOverview.fetched tmdb t) as [[|c ov]|]; reflexivity.
  - intros fails claude titles use_claude w. cbv zeta. rewrite backfill_themes_run.
    destruct (ThemesOverview.themes_enabled claude use_claude); cbn [snd log]; [|lia].
    rewrite sleeps_app, updates_app, length_app, (sleeps_updates_flat_map _ titles); [lia|].
    intros t. unfold ThemesOverview.themes_events.
    destruct (negb (truthy_opt_str (overview t))); [reflexivity|].
    rewrite sleeps_app, updates_app, length_app.
    destruct (ThemesOverview.prompt_for claude t),
      (ThemesOverview.generated claude t) as [[|th ths]|]; reflexivity.
Qed.

(** ** What the loops leave of the table *)

Lemma alter_frame (f h : row -> row) (i : Z) (tbl : gmap Z row) :
  (forall r, h (f r) = h r) -> h <$> alter f i tbl = h <$> tbl.
Proof.
  intros H. apply map_eq. intros j. rewrite !lookup_fmap, lookup_alter.
  destruct (decide (i = j)) as [->|]; [|reflexivity].
  destruct (tbl !! j) as [r|]; [|reflexivity]. cbn. now rewrite H.
Qed.

Lemma foldl_frame {A} (g : A -> gmap Z row -> gmap Z row) (h : row -> row)
    (l : list A) (tbl : gmap Z row) :
  (forall x tb, h <$> g x tb = h <$> tb) ->
  h <$> foldl (fun tb x => g x tb) tbl l = h <$> tbl.
Proof.
  intros H. revert tbl. induction l as [|x l IH]; intros tbl; cbn [foldl]; [reflexivity|].
  now rewrite IH, H.
Qed.

Lemma foldl_outside {A} (g : A -> gmap Z row -> gmap Z row) (key : A -> Z)
    (l : list A) (tbl : gmap Z row) (j : Z) :
  (forall x tb, j <> key x -> g x tb !! j = tb !! j) ->
  ~ In j (map key l) ->
  foldl (fun tb x => g x tb) tbl l !! j = tbl !! j.
Proof.
  intros H. revert tbl. induction l as [|x l IH]; intros tbl Hj; cbn [foldl]; [reflexivity|].
  cbn [map In] in Hj. rewrite IH by tauto. apply H. intros ->. tauto.
Qed.

Lemma keywords_table_after_outside (tmdb : string -> http_answer)
    (fails : assignment -> Z -> bool) (dry_run : bool) (t : row) (tb : gmap Z row) (j : Z) :
  j <> id t -> Keywords.table_after tmdb fails dry_run t tb !! j = tb !! j.
Proof.
  intros Hj. unfold Keywords.table_after.
  destruct (Keywords.fetched tmdb t) as [[|k ks]|]; try reflexivity.
  destruct (dry_run || _); [reflexivity|]. now rewrite lookup_alter_ne.
Qed.

Lemma overview_table_outside (tmdb : string -> http_answer)
    (fails : assignment -> Z -> bool) (dry_run : bool) (t : row) (tb : gmap Z row) (j : Z) :
  j <> id t -> ThemesOverview.overview_table tmdb fails dry_run t tb !! j = tb !! j.
Proof.
  intros Hj. unfold ThemesOverview.overview_table.
  destruct (ThemesOverview.fetched tmdb t) as [[|c ov]|]; try reflexivity.
  destruct (dry_run || _); [reflexivity|]. now rewrite lookup_alter_ne.
Qed.

Lemma themes_table_outside (fails : assignment -> Z -> bool)
    (claude : option (string -> completion)) (dry_run : bool) (t : row)
    (tb : gmap Z row) (j : Z) :
  j <> id t -> ThemesOverview.themes_table fails claude dry_run t tb !! j = tb !! j.
Proof.
  intros Hj. unfold ThemesOverview.themes_table.
  destruct (negb (truthy_opt_str (overview t))); [reflexivity|].
  destruct (ThemesOverview.generated claude t) as [[|th ths]|]; try reflexivity.
  destruct (dry_run || _); [reflexivity|]. now rewrite lookup_alter_ne.
Qed.

Lemma keywords_table_after_frame (tmdb : string -> http_answer)
    (fails : assignment -> Z -> bool) (dry_run : bool) (t : row) (tb : gmap Z row) :
  without_keywords <$> Keywords.table_after tmdb fails dry_run t tb = without_keywords <$> tb.
Proof.
  unfold Keywords.table_after.
  destruct (Keywords.fetched tmdb t) as [[|k ks]|]; try reflexivity.
  destruct (dry_run || _); [reflexivity|]. now apply alter_frame.
Qed.

Lemma overview_table_frame (tmdb : string -> http_answer)
    (fails : assignment -> Z -> bool) (dry_run : bool) (t : row) (tb : gmap Z row) :
  without_overview <$> ThemesOverview.overview_table tmdb fails dry_run t tb
  = without_overview <$> tb.
Proof.
  unfold ThemesOverview.overview_table.
  destruct (ThemesOverview.fetched tmdb t) as [[|c ov]|]; try reflexivity.
  destruct (dry_run || _); [reflexivity|]. now apply alter_frame.
Qed.

Lemma themes_table_frame (fails : assignment -> Z -> bool)
    (claude : option (string -> completion)) (dry_run : bool) (t : row) (tb : gmap Z row) :
  without_themes <$> ThemesOverview.themes_table fails claude dry_run t tb
  = without_themes <$> tb.
Proof.
  unfold ThemesOverview.themes_table.
  destruct (negb (truthy_opt_str (overview t))); [reflexivity|].
  destruct (ThemesOverview.generated claude t) as [[|th ths]|]; try reflexivity.
  destruct (dry_run || _); [reflexivity|]. now apply alter_frame.
Qed.

(** X9: whatever the services answer, a run of one of the three loops adds
    no row to the table, removes none, and changes no column but its own:
    with the column [keywords] (resp. [overview], [themes]) blanked, the
    table after the run is the table before it. *)
Theorem loops_touch_their_column_only :
  (forall tmdb fails titles dry_run w,
      without_keywords
        <$> table (snd (Keywords.backfill_keywords_batch tmdb fails titles dry_run w))
      = without_keywords <$> table w)
  /\ (forall tmdb fails titles dry_run w,
      without_overview
        <$> table (snd (ThemesOverview.backfill_overviews tmdb fails titles dry_run w))
      = without_overview <$> table w)
  /\ (forall fails claude titles dry_run use_claude w,
      without_themes
        <$> table (snd (ThemesOverview.backfill_themes fails claude titles dry_run
                          use_claude w))
      = without_themes <$> table w).
Proof.
  split; [|split].
  - intros. rewrite backfill_keywords_batch_run. cbn [snd table].
    apply (foldl_frame (Keywords.table_after tmdb fails dry_run)).
    intros. apply keywords_table_after_frame.
  - intros. rewrite backfill_overviews_run. cbn [snd table].
    apply (foldl_frame (ThemesOverview.overview_table tmdb fails dry_run)).
    intros. apply overview_table_frame.
  - intros. rewrite backfill_themes_run.
    destruct (ThemesOverview.themes_enabled claude use_claude); cbn [snd table]; [|reflexivity].
    apply (foldl_frame (ThemesOverview.themes_table fails claude dry_run)).
    intros. apply themes_table_frame.
Qed.

(** X10: a run of one of the three loops leaves every row alone whose [id]
    is not the [id] of a row of the batch. *)
Theorem rows_outside_batch_untouched (titles : list row) (j : Z) :
  ~ In j (map id titles) ->
  (forall tmdb fails dry_run w,
      table (snd (Keywords.backfill_keywords_batch tmdb fails titles dry_run w)) !! j
      = table w !! j)
  /\ (forall tmdb fails dry_run w,
      table (snd (ThemesOverview.backfill_overviews tmdb fails titles dry_run w)) !! j
      = table w !! j)
  /\ (forall fails claude dry_run use_claude w,
      table (snd (ThemesOverview.backfill_themes fails claude titles dry_run use_claude w))
        !! j
      = table w !! j).
Proof.
  intros Hj. split; [|split].
  - intros. rewrite backfill_keywords_batch_run. cbn [snd table].
    apply (foldl_outside (Keywords.table_after tmdb fails dry_run) id); [|exact Hj].
    intros. now apply keywords_table_after_outside.
  - intros. rewrite backfill_overviews_run. cbn [snd table].
    apply (foldl_outside (ThemesOverview.overview_table tmdb fails dry_run) id); [|exact Hj].
    intros. now apply overview_table_outside.
  - intros. rewrite backfill_themes_run.
    destruct (ThemesOverview.themes_enabled claude use_claude); cbn [snd table]; [|reflexivity].
    apply (foldl_outside (ThemesOverview.themes_table fails claude dry_run) id); [|exact Hj].
    intros. now apply themes_table_outside.
Qed.

Lemma rows_outside_batch_untouched_witness :
  ~ In 103%Z (map id [Sample.heat; Sample.blank])
  /\ table (snd (Keywords.backfill_keywords_batch Sample.catalogue Sample.takes_all
                   [Sample.heat; Sample.blank] false Sample.start)) !! 103%Z
     = Some Sample.gone.
Proof.
  assert (H : ~ In 103%Z (map id [Sample.heat; Sample.blank])).
  { cbn. intros [H|[H|[]]]; discriminate H. }
  split; [exact H|].
  rewrite (proj1 (rows_outside_batch_untouched [Sample.heat; Sample.blank] 103%Z H)
             Sample.catalogue Sample.takes_all false Sample.start).
  vm_compute; reflexivity.
Defined.

Lemma keywords_fetch_is_fetched (tmdb : string -> http_answer) (t : row) (w : world) :
  fst (Keywords.fetch_tmdb_keywords tmdb (id t) (kind t) w) = Return (Keywords.fetched tmdb t).
Proof. now rewrite fetch_tmdb_keywords_run. Qed.

Lemma keywords_table_stored (tmdb : string -> http_answer) (fails : assignment -> Z -> bool)
    (titles : list row) (tbl : gmap Z row) (t r : row) (kws : list string) :
  NoDup (map id titles) -> In t titles ->
  tbl !! id t = Some r ->
  Keywords.fetched tmdb t = Some kws ->
  fails (SetKeywords kws) (id t) = false ->
  foldl (fun tb x => Keywords.table_after tmdb fails false x tb) tbl titles !! id t
  = Some (assign (SetKeywords kws) r).
Proof.
  intros Hnd Hin Hr Hf Hok. revert tbl Hr.
  induction titles as [|x titles IH]; intros tbl Hr; [destruct Hin|].
  cbn [map] in Hnd. apply NoDup_cons in Hnd as [Hx Hnd]. cbn [foldl].
  destruct Hin as [->|Hin].
  - rewrite (foldl_outside (Keywords.table_after tmdb fails false) id).
    + unfold Keywords.table_after. rewrite Hf.
      pose proof (fetched_not_empty tmdb t) as Hne. rewrite Hf in Hne.
      destruct kws as [|k ks]; [congruence|]. cbn [orb]. rewrite Hok.
      now rewrite lookup_alter_eq, Hr.
    + intros. now apply keywords_table_after_outside.
    + now rewrite <- list_elem_of_In.
  - apply (IH Hnd Hin).
    rewrite keywords_table_after_outside; [exact Hr|].
    intros Heq. apply Hx. rewrite <- Heq. apply list_elem_of_In, in_map, Hin.
Qed.

(** X11: after a run of [backfill_keywords_batch] that is not dry, over a
    batch without two rows of the same [id], every row of the batch that the
    table holds, whose fetch returned keywords and whose update the table
    took, holds exactly the fetched keywords in its column [keywords], and
    is otherwise as it was. *)
Theorem fetched_keywords_are_stored (tmdb : string -> http_answer)
    (fails : assignment -> Z -> bool) (titles : list row) (w : world)
    (t r : row) (kws : list string) :
  NoDup (map id titles) -> In t titles ->
  table w !! id t = Some r ->
  fst (Keywords.fetch_tmdb_keywords tmdb (id t) (kind t) w) = Return (Some kws) ->
  fails (SetKeywords kws) (id t) = false ->
  table (snd (Keywords.backfill_keywords_batch tmdb fails titles false w)) !! id t
  = Some (Row (id r) (title r) (kind r) (popularity r) (overview r) (genres r)
              (Some kws) (themes r)).
Proof.
  intros Hnd Hin Hr Hf Hok. rewrite keywords_fetch_is_fetched in Hf. injection Hf as Hf.
  rewrite backfill_keywords_batch_run. cbn [snd table].
  now rewrite (keywords_table_stored tmdb fails titles (table w) t r kws).
Qed.

Lemma fetched_keywords_are_stored_witness :
  table (snd (Keywords.backfill_keywords_batch Sample.catalogue Sample.takes_all
                [Sample.gone; Sample.blank; Sample.heat] false Sample.start)) !! 101%Z
  = Some (Row 101 "Heat" "movie" (Qmake 90 1) None None (Some ["noir"; "heist"]) None).
Proof.
  apply (fetched_keywords_are_stored Sample.catalogue Sample.takes_all
           [Sample.gone; Sample.blank; Sample.heat] Sample.start Sample.heat Sample.heat
           ["noir"; "heist"]).
  - cbn. repeat constructor; rewrite ?list_elem_of_In; cbn; intuition discriminate.
  - cbn. tauto.
  - vm_compute; reflexivity.
  - vm_compute; reflexivity.
  - reflexivity.
Defined.

(** ** Batches in two parts *)

Lemma tally_counters_add (tmdb : string -> http_answer) (fails : assignment -> Z -> bool)
    (dry_run : bool) (titles : list row) (st : Keywords.stats) (n : nat) :
  let go := foldl (fun s t => Keywords.count (Keywords.outcome_of tmdb fails dry_run t) s) in
  Keywords.success (go st titles)
  = Keywords.success st + Keywords.success (go (Keywords.Stats n 0 0 0 0) titles)
  /\ Keywords.no_keywords_found (go st titles)
     = Keywords.no_keywords_found st
       + Keywords.no_keywords_found (go (Keywords.Stats n 0 0 0 0) titles)
  /\ Keywords.api_error (go st titles)
     = Keywords.api_error st + Keywords.api_error (go (Keywords.Stats n 0 0 0 0) titles)
  /\ Keywords.db_error (go st titles)
     = Keywords.db_error st + Keywords.db_error (go (Keywords.Stats n 0 0 0 0) titles).
Proof.
  cbv zeta. revert st. induction titles as [|t titles IH] using rev_ind; intros st.
  - cbn. lia.
  - rewrite !foldl_app. cbn [foldl]. destruct (IH st) as [H1 [H2 [H3 H4]]].
    destruct (Keywords.outcome_of tmdb fails dry_run t); cbn; lia.
Qed.

(** X12: a batch may be cut anywhere: running [backfill_keywords_batch] on
    the first part and then on the second, from the world the first run
    left, ends in the same world (table and log) as one run on the whole
    batch, and each counter of the whole run, [total] included, is the sum
    of the counters of the two runs. *)
Theorem batches_compose (tmdb : string -> http_answer) (fails : assignment -> Z -> bool)
    (l1 l2 : list row) (dry_run : bool) (w : world) :
  let r1 := Keywords.backfill_keywords_batch tmdb fails l1 dry_run w in
  let r2 := Keywords.backfill_keywords_batch tmdb fails l2 dry_run (snd r1) in
  let r := Keywords.backfill_keywords_batch tmdb fails (l1 ++ l2) dry_run w in
  snd r = snd r2
  /\ exists st st1 st2,
      fst r = Return st /\ fst r1 = Return st1 /\ fst r2 = Return st2
      /\ Keywords.total st = Keywords.total st1 + Keywords.total st2
      /\ Keywords.success st = Keywords.success st1 + Keywords.success st2
      /\ Keywords.no_keywords_found st
         = Keywords.no_keywords_found st1 + Keywords.no_keywords_found st2
      /\ Keywords.api_error st = Keywords.api_error st1 + Keywords.api_error st2
      /\ Keywords.db_error st = Keywords.db_error st1 + Keywords.db_error st2.
Proof.
  cbv zeta. rewrite !backfill_keywords_batch_run. cbn [fst snd table log]. split.
  - now rewrite foldl_app, flat_map_app, app_assoc.
  - do 3 eexists. split; [reflexivity|]. split; [reflexivity|]. split; [reflexivity|].
    rewrite !tally_total. cbn [Keywords.total]. rewrite length_app. split; [reflexivity|].
    rewrite foldl_app.
    destruct (tally_counters_add tmdb fails dry_run l2
                (foldl (fun s t => Keywords.count (Keywords.outcome_of tmdb fails dry_run t) s)
                       (Keywords.Stats (length l1 + length l2) 0 0 0 0) l1) (length l2))
      as [-> [-> [-> ->]]].
    destruct (tally_counters_add tmdb fails dry_run l1
                (Keywords.Stats (length l1 + length l2) 0 0 0 0) (length l1))
      as [-> [-> [-> ->]]].
    cbn. repeat split.
Qed.

(** ** [main] of the keywords script *)

Lemma lower_char_y (c : ascii) :
  Py.lower_char c = "y"%char -> c = "y"%char \/ c = "Y"%char.
Proof.
  destruct c as [[] [] [] [] [] [] [] []]; vm_compute; intros H;
    first [discriminate H | now left | now right].
Qed.

(** [s.lower() == "y"] holds for the two strings ["y"] and ["Y"] only. *)
Lemma lower_is_y (s : string) :
  String.eqb (Py.lower s) "y" = String.eqb s "y" || String.eqb s "Y".
Proof.
  destruct s as [|c [|c' s]]; [reflexivity| |].
  - cbn [Py.lower]. destruct (String.eqb (String (Py.lower_char c) "") "y") eqn:H.
    + apply String.eqb_eq in H. injection H as H.
      destruct (lower_char_y c H) as [->| ->]; reflexivity.
    + symmetry. apply orb_false_iff. split; apply String.eqb_neq; intros [= ->];
        apply String.eqb_neq in H; apply H; reflexivity.
  - cbn [Py.lower]. transitivity false.
    + apply String.eqb_neq. intros H. injection H. discriminate.
    + symmetry. apply orb_false_iff.
      split; apply String.eqb_neq; intros H; injection H; discriminate.
Qed.

Section KeywordsMain.

Variable tmdb : string -> http_answer.
Variable execute_update_fails : assignment -> Z -> bool.
Variable execute_select : gmap Z row -> query -> result (list row).
Variables TMDB_API_KEY SUPABASE_URL SUPABASE_KEY : option string.

Local Abbreviation main :=
  (Keywords.main tmdb execute_update_fails execute_select
                 TMDB_API_KEY SUPABASE_URL SUPABASE_KEY).

Local Abbreviation selected := (fun tbl q => rows_or_empty (execute_select tbl q)).
Local Abbreviation keywords_query := Keywords.keywords_query.

Lemma get_titles_missing_keywords_exact (limit : option Z) (w : world) :
  Keywords.get_titles_missing_keywords execute_select limit w
  = (Return (selected (table w) (keywords_query limit)),
     World (table w) (log w ++ [TableSelect (keywords_query limit)])).
Proof.
  unfold Keywords.get_titles_missing_keywords, try_except, execute_query, bind, emit,
    get_table, lift, ret, rows_or_empty, Keywords.keywords_query; simpl.
  destruct (execute_select _ _); reflexivity.
Qed.

(** What [main] does once it has a limit and a mode. *)
Lemma main_tail (limit : option Z) (dry_run : bool) (w : world) :
  (titles <- Keywords.get_titles_missing_keywords execute_select limit ;;
   if negb (Py.truthy_list titles) then ret None
   else st <- Keywords.backfill_keywords_batch tmdb execute_update_fails titles dry_run ;;
        Keywords.print_stats st ;;
        ret (Some st)) w
  = let q := keywords_query limit in
    let rows := selected (table w) q in
    match rows with
    | [] => (Return None, World (table w) (log w ++ [TableSelect q]))
    | _ :: _ =>
        (Return (Some (Keywords.tally tmdb execute_update_fails dry_run rows)),
         World (foldl (fun tbl t => Keywords.table_after tmdb execute_update_fails dry_run t tbl)
                      (table w) rows)
               ((log w ++ [TableSelect q]) ++ flat_map (Keywords.events_of tmdb dry_run) rows))
    end.
Proof.
  cbv zeta. rewrite (bind_returns _ _ _ _ _ (get_titles_missing_keywords_exact limit w)).
  destruct (selected (table w) (keywords_query limit)) as [|t rows]; [reflexivity|].
  cbn [Py.truthy_list negb].
  rewrite (bind_returns _ _ _ _ _ (backfill_keywords_batch_run _ _ _ _ _)).
  cbn [table log]. fold (Keywords.tally tmdb execute_update_fails dry_run (t :: rows)).
  assert (Hpos : 0 < Keywords.total (Keywords.tally tmdb execute_update_fails dry_run
                                       (t :: rows))).
  { unfold Keywords.tally. rewrite tally_total. simpl. lia. }
  destruct (print_stats_returns _
              (World (foldl (fun tbl t0 => Keywords.table_after tmdb execute_update_fails
                                             dry_run t0 tbl) (table w) (t :: rows))
                     ((log w ++ [TableSelect (keywords_query limit)])
                      ++ flat_map (Keywords.events_of tmdb dry_run) (t :: rows)))
              Hpos) as [q Hq].
  now rewrite (bind_returns _ _ _ _ _ Hq).
Qed.

(** [main] either stops before any call, or selects and runs as
    [main_tail] says. *)
Lemma main_cases (choice confirm : string) (w : world) :
  main choice confirm w = (Return None, w)
  \/ exists limit dry_run,
      main choice confirm w
      = (titles <- Keywords.get_titles_missing_keywords execute_select limit ;;
         if negb (Py.truthy_list titles) then ret None
         else st <- Keywords.backfill_keywords_batch tmdb execute_update_fails titles dry_run ;;
              Keywords.print_stats st ;;
              ret (Some st)) w.
Proof.
  unfold Keywords.main.
  destruct (negb (truthy_opt_str TMDB_API_KEY)); [now left|].
  destruct (negb (truthy_opt_str SUPABASE_URL) || negb (truthy_opt_str SUPABASE_KEY));
    [now left|].
  destruct (String.eqb (Py.strip choice) "1"); [right; now exists (Some 10%Z), true|].
  destruct (String.eqb (Py.strip choice) "2"); [right; now exists (Some 50%Z), false|].
  destruct (String.eqb (Py.strip choice) "3"); [right; now exists (Some 100%Z), false|].
  destruct (String.eqb (Py.strip choice) "4"); [|now left].
  destruct (String.eqb (Py.strip confirm) "y" || String.eqb (Py.strip confirm) "Y");
    [right; now exists None, false|now left].
Qed.

End KeywordsMain.



(** X14: whatever is typed and whatever the services answer, [main] of the
    keywords script adds no row to the table, removes none and changes no
    column but [keywords]; under choice 1, the dry run, it leaves the whole
    table as it was. *)
Theorem keywords_main_touches_keywords_only (tmdb : string -> http_answer)
    (fails : assignment -> Z -> bool)
    (select : gmap Z row -> query -> result (list row))
    (key url skey : option string) (choice confirm : string) (w : world) :
  without_keywords
    <$> table (snd (Keywords.main tmdb fails select key url skey choice confirm w))
  = without_keywords <$> table w
  /\ table (snd (Keywords.main tmdb fails select key url skey "1" confirm w)) = table w.
Proof.
  split.
  - destruct (main_cases tmdb fails select key url skey choice confirm w)
      as [->|[limit [dry_run ->]]]; [reflexivity|].
    rewrite main_tail. cbv zeta.
    destruct (rows_or_empty _) as [|t rows]; [reflexivity|]. cbn [snd table].
    apply (foldl_frame (Keywords.table_after tmdb fails dry_run)).
    intros. apply keywords_table_after_frame.
  - now destruct (main_dry_run tmdb fails select key url skey confirm w w eq_refl).
Qed.

(** X15: [main] of the keywords script returns at once, before any select,
    request or update, when a credential is missing or empty, when the
    choice typed is none of 1, 2, 3, 4, and when the choice is 4 and the
    confirmation is not [y] or [Y]. *)
Theorem keywords_main_stops_before_any_call (tmdb : string -> http_answer)
    (fails : assignment -> Z -> bool)
    (select : gmap Z row -> query -> result (list row))
    (key url skey : option string) (choice confirm : string) (w : world) :
  truthy_opt_str key && truthy_opt_str url && truthy_opt_str skey = false
  \/ ~ In (Py.strip choice) ["1"; "2"; "3"; "4"]
  \/ (Py.strip choice = "4" /\ Py.lower (Py.strip confirm) <> "y") ->
  Keywords.main tmdb fails select key url skey choice confirm w = (Return None, w).
Proof.
  intros H. unfold Keywords.main.
  destruct (truthy_opt_str key); [|reflexivity].
  destruct (truthy_opt_str url); [|reflexivity].
  destruct (truthy_opt_str skey); [|reflexivity].
  cbn [negb orb andb] in *.
  destruct H as [H|[H|[H4 Hc]]]; [discriminate| |].
  - cbn [In] in H.
    destruct (String.eqb_spec (Py.strip choice) "1") as [E|_]; [rewrite E in H; tauto|].
    destruct (String.eqb_spec (Py.strip choice) "2") as [E|_]; [rewrite E in H; tauto|].
    destruct (String.eqb_spec (Py.strip choice) "3") as [E|_]; [rewrite E in H; tauto|].
    destruct (String.eqb_spec (Py.strip choice) "4") as [E|_]; [rewrite E in H; tauto|].
    reflexivity.
  - rewrite H4. cbn [String.eqb Ascii.eqb Bool.eqb andb].
    rewrite <- lower_is_y. apply String.eqb_neq in Hc. now rewrite Hc.
Qed.

Lemma keywords_main_stops_before_any_call_witness :
  Keywords.main Sample.catalogue Sample.takes_all (fun _ _ => Return [Sample.heat])
    (Some "k") (Some "u") (Some "s") " 4 " "n" Sample.start = (Return None, Sample.start)
  /\ Keywords.main Sample.catalogue Sample.takes_all (fun _ _ => Return [Sample.heat])
       None (Some "u") (Some "s") "2" "" Sample.start = (Return None, Sample.start).
Proof.
  split.
  - apply keywords_main_stops_before_any_call. right. right.
    split; [vm_compute; reflexivity|vm_compute; discriminate].
  - apply keywords_main_stops_before_any_call. left. reflexivity.
Defined.

(** X16: when the select fails or finds no row, [main] of the keywords
    script returns without statistics, and between the select and the
    return it sends no request to the catalogue, no update to the table and
    does not sleep; a failed select is taken for an empty one. *)
Theorem keywords_main_nothing_selected (tmdb : string -> http_answer)
    (fails : assignment -> Z -> bool)
    (select : gmap Z row -> query -> result (list row))
    (key url skey : option string) (choice confirm : string) (w : world) :
  (forall q, rows_or_empty (select (table w) q) = []) ->
  exists l,
    Keywords.main tmdb fails select key url skey choice confirm w
    = (Return None, World (table w) l)
    /\ urls l = urls (log w) /\ updates l = updates (log w) /\ sleeps l = sleeps (log w).
Proof.
  intros H.
  destruct (main_cases tmdb fails select key url skey choice confirm w)
    as [->|[limit [dry_run ->]]].
  - exists (log w). now destruct w.
  - rewrite main_tail. cbv zeta. rewrite H. eexists. split; [reflexivity|].
    rewrite urls_app, updates_app, sleeps_app.
    change (urls [TableSelect (Keywords.keywords_query limit)]) with (@nil string).
    change (updates [TableSelect (Keywords.keywords_query limit)])
      with (@nil (assignment * Z)).
    change (sleeps [TableSelect (Keywords.keywords_query limit)]) with 0.
    rewrite !app_nil_r. repeat split. lia.
Qed.

Lemma keywords_main_nothing_selected_witness :
  exists l,
    Keywords.main Sample.catalogue Sample.takes_all (fun _ _ => Raise APIError)
      (Some "k") (Some "u") (Some "s") "2" "" Sample.start
    = (Return None, World (table Sample.start) l)
    /\ urls l = urls (log Sample.start) /\ updates l = updates (log Sample.start)
    /\ sleeps l = sleeps (log Sample.start).
Proof.
  apply keywords_main_nothing_selected. intros q. reflexivity.
Defined.

(** ** [main] of the themes and overview script *)

Lemma prompts_app (l1 l2 : list event) : prompts (l1 ++ l2) = prompts l1 ++ prompts l2.
Proof. unfold prompts. apply omap_app. Qed.

Lemma themes_print_stats_returns
    (s : ThemesOverview.OverviewStats.t + ThemesOverview.ThemeStats.t)
    (operation : string) (w : world) :
  exists rate, ThemesOverview.print_stats s operation w = (Return rate, w).
Proof.
  unfold ThemesOverview.print_stats.
  destruct (ThemesOverview.total_of s) as [|n]; cbn [Nat.ltb Nat.leb]; [now eexists|].
  unfold bind, lift, ret, truediv. now eexists.
Qed.

Lemma overview_events_quiet (tmdb : string -> http_answer) (dry_run : bool)
    (titles : list row) :
  prompts (flat_map (ThemesOverview.overview_events tmdb dry_run) titles) = []
  /\ (dry_run = true ->
      updates (flat_map (ThemesOverview.overview_events tmdb dry_run) titles) = []).
Proof.
  induction titles as [|t titles [IH1 IH2]]; cbn [flat_map]; [now split|].
  rewrite prompts_app, updates_app, IH1, app_nil_r. split.
  - unfold ThemesOverview.overview_events.
    destruct (ThemesOverview.fetched tmdb t) as [[|c ov]|]; try reflexivity.
    now destruct dry_run.
  - intros ->. rewrite (IH2 eq_refl), app_nil_r. unfold ThemesOverview.overview_events.
    now destruct (ThemesOverview.fetched tmdb t) as [[|c ov]|].
Qed.

Lemma overview_table_dry (tmdb : string -> http_answer) (fails : assignment -> Z -> bool)
    (titles : list row) (tbl : gmap Z row) :
  foldl (fun tb t => ThemesOverview.overview_table tmdb fails true t tb) tbl titles = tbl.
Proof.
  induction titles as [|t titles IH]; cbn [foldl]; [reflexivity|].
  unfold ThemesOverview.overview_table at 2.
  destruct (ThemesOverview.fetched tmdb t) as [[|c ov]|]; apply IH.
Qed.

Section ThemesOverviewMain.

Variable tmdb : string -> http_answer.
Variable execute_update_fails : assignment -> Z -> bool.
Variable execute_select : gmap Z row -> query -> result (list row).
Variables TMDB_API_KEY SUPABASE_URL SUPABASE_KEY ANTHROPIC_API_KEY : option string.
Variable anthropic_client : string -> completion.

Local Abbreviation claude := (ThemesOverview.claude ANTHROPIC_API_KEY anthropic_client).
Local Abbreviation overview_step :=
  (ThemesOverview.overview_step tmdb execute_update_fails execute_select).
Local Abbreviation themes_step :=
  (ThemesOverview.themes_step execute_update_fails execute_select
                              ANTHROPIC_API_KEY anthropic_client).
Local Abbreviation main :=
  (ThemesOverview.main tmdb execute_update_fails execute_select TMDB_API_KEY SUPABASE_URL
                       SUPABASE_KEY ANTHROPIC_API_KEY anthropic_client).
Local Abbreviation selected := (fun tbl q => rows_or_empty (execute_select tbl q)).

Lemma get_titles_missing_overview_exact (limit : option Z) (w : world) :
  ThemesOverview.get_titles_missing_overview execute_select limit w
  = (Return (selected (table w) (ThemesOverview.overview_query limit)),
     World (table w) (log w ++ [TableSelect (ThemesOverview.overview_query limit)])).
Proof.
  unfold ThemesOverview.get_titles_missing_overview, try_except, execute_query, bind, emit,
    get_table, lift, ret, rows_or_empty, ThemesOverview.overview_query; simpl.
  destruct (execute_select _ _); reflexivity.
Qed.

Lemma get_titles_missing_themes_exact (limit : option Z) (w : world) :
  ThemesOverview.get_titles_missing_themes execute_select limit w
  = (Return (selected (table w) (ThemesOverview.themes_query limit)),
     World (table w) (log w ++ [TableSelect (ThemesOverview.themes_query limit)])).
Proof.
  unfold ThemesOverview.get_titles_missing_themes, try_except, execute_query, bind, emit,
    get_table, lift, ret, rows_or_empty, ThemesOverview.themes_query; simpl.
  destruct (execute_select _ _); reflexivity.
Qed.

Lemma overview_step_run (dry_run : bool) (w : world) :
  overview_step dry_run w
  = let q := ThemesOverview.overview_query None in
    match selected (table w) q with
    | [] => (Return None, World (table w) (log w ++ [TableSelect q]))
    | t :: rows =>
        (Return (Some (ThemesOverview.tally_overviews tmdb execute_update_fails dry_run
                         (t :: rows))),
         World (foldl (fun tbl x => ThemesOverview.overview_table tmdb execute_update_fails
                                      dry_run x tbl) (table w) (t :: rows))
               ((log w ++ [TableSelect q])
                ++ flat_map (ThemesOverview.overview_events tmdb dry_run) (t :: rows)))
    end.
Proof.
  cbv zeta. unfold ThemesOverview.overview_step.
  rewrite (bind_returns _ _ _ _ _ (get_titles_missing_overview_exact None w)).
  destruct (rows_or_empty _) as [|t rows]; [reflexivity|]. cbn [Py.truthy_list].
  rewrite (bind_returns _ _ _ _ _ (backfill_overviews_run _ _ _ _ _)).
  fold (ThemesOverview.tally_overviews tmdb execute_update_fails dry_run (t :: rows)).
  match goal with
  | |- bind (ThemesOverview.print_stats ?s ?op) _ ?w0 = _ =>
      destruct (themes_print_stats_returns s op w0) as [rate Hp];
      rewrite (bind_returns _ _ _ _ _ Hp)
  end.
  reflexivity.
Qed.

Lemma themes_step_run (dry_run : bool) (w : world) :
  truthy_opt_str ANTHROPIC_API_KEY = true ->
  themes_step dry_run w
  = let q := ThemesOverview.themes_query None in
    match selected (table w) q with
    | [] => (Return None, World (table w) (log w ++ [TableSelect q]))
    | t :: rows =>
        (Return (Some (ThemesOverview.tally_themes execute_update_fails claude dry_run
                         (t :: rows))),
         World (foldl (fun tbl x => ThemesOverview.themes_table execute_update_fails claude
                                      dry_run x tbl) (table w) (t :: rows))
               ((log w ++ [TableSelect q])
                ++ flat_map (ThemesOverview.themes_events claude dry_run) (t :: rows)))
    end.
Proof.
  intros Hkey. cbv zeta. unfold ThemesOverview.themes_step.
  rewrite (bind_returns _ _ _ _ _ (get_titles_missing_themes_exact None w)).
  destruct (rows_or_empty _) as [|t rows]; [reflexivity|]. cbn [Py.truthy_list].
  assert (Hen : ThemesOverview.themes_enabled claude true = true).
  { unfold ThemesOverview.themes_enabled, ThemesOverview.claude. rewrite Hkey.
    cbn [andb]. apply bool_decide_eq_true_2. eauto. }
  pose proof (backfill_themes_run execute_update_fails claude (t :: rows) dry_run true
                (World (table w) (log w ++ [TableSelect (ThemesOverview.themes_query None)])))
    as Hrun.
  rewrite Hen in Hrun. rewrite (bind_returns _ _ _ _ _ Hrun).
  fold (ThemesOverview.tally_themes execute_update_fails claude dry_run (t :: rows)).
  match goal with
  | |- bind (ThemesOverview.print_stats ?s ?op) _ ?w0 = _ =>
      destruct (themes_print_stats_returns s op w0) as [rate Hp];
      rewrite (bind_returns _ _ _ _ _ Hp)
  end.
  reflexivity.
Qed.

End ThemesOverviewMain.

Section ThemesOverviewProgram.

Variable tmdb : string -> http_answer.
Variable execute_update_fails : assignment -> Z -> bool.
Variable execute_select : gmap Z row -> query -> result (list row).
Variables TMDB_API_KEY SUPABASE_URL SUPABASE_KEY ANTHROPIC_API_KEY : option string.
Variable anthropic_client : string -> completion.

Local Abbreviation overview_step :=
  (ThemesOverview.overview_step tmdb execute_update_fails execute_select).
Local Abbreviation themes_step :=
  (ThemesOverview.themes_step execute_update_fails execute_select
                              ANTHROPIC_API_KEY anthropic_client).
Local Abbreviation main :=
  (ThemesOverview.main tmdb execute_update_fails execute_select TMDB_API_KEY SUPABASE_URL
                       SUPABASE_KEY ANTHROPIC_API_KEY anthropic_client).

Lemma overview_step_spec (dry_run : bool) (w : world) :
  exists s1 w1,
    overview_step dry_run w = (Return s1, w1)
    /\ match s1 with
       | Some st => 0 < ThemesOverview.OverviewStats.total st
                    /\ ThemesOverview.OverviewStats.outcomes st
                       = ThemesOverview.OverviewStats.total st
       | None => True
       end.
Proof.
  rewrite overview_step_run. cbv zeta.
  destruct (rows_or_empty _) as [|t rows]; do 2 eexists; (split; [reflexivity|]);
    [exact I|].
  unfold ThemesOverview.tally_overviews.
  destruct (tally_overview_outcomes tmdb execute_update_fails dry_run (t :: rows)
              (ThemesOverview.OverviewStats.Make (length (t :: rows)) 0 0 0)) as [-> ->].
  cbn. lia.
Qed.

Lemma themes_step_spec (dry_run : bool) (w : world) :
  truthy_opt_str ANTHROPIC_API_KEY = true ->
  exists s2 w2,
    themes_step dry_run w = (Return s2, w2)
    /\ match s2 with
       | Some st => 0 < ThemesOverview.ThemeStats.total st
                    /\ ThemesOverview.ThemeStats.outcomes st
                       = ThemesOverview.ThemeStats.total st
       | None => True
       end.
Proof.
  intros Hkey. rewrite themes_step_run by exact Hkey. cbv zeta.
  destruct (rows_or_empty _) as [|t rows]; do 2 eexists; (split; [reflexivity|]);
    [exact I|].
  unfold ThemesOverview.tally_themes.
  destruct (tally_themes_outcomes execute_update_fails
              (ThemesOverview.claude ANTHROPIC_API_KEY anthropic_client) dry_run (t :: rows)
              (ThemesOverview.ThemeStats.Make (length (t :: rows)) 0 0 0)) as [-> ->].
  cbn. lia.
Qed.

(** [main] returns, its statistics come from a loop that ran, and any
    relation between worlds that is a preorder and that both steps respect
    holds between the world [main] starts from and the one it leaves. *)
Lemma main_master (R : world -> world -> Prop) (choice dry_run_input : string) (w : world) :
  let dry_run := String.eqb (Py.lower (Py.strip dry_run_input)) "y" in
  (forall w0, R w0 w0) ->
  (forall a b c, R a b -> R b c -> R a c) ->
  (forall w0, R w0 (snd (overview_step dry_run w0))) ->
  (truthy_opt_str ANTHROPIC_API_KEY = true -> forall w0, R w0 (snd (themes_step dry_run w0))) ->
  exists s1 s2 w',
    main choice dry_run_input w = (Return (s1, s2), w')
    /\ R w w'
    /\ match s1 with
       | Some st => 0 < ThemesOverview.OverviewStats.total st
                    /\ ThemesOverview.OverviewStats.outcomes st
                       = ThemesOverview.OverviewStats.total st
       | None => True
       end
    /\ match s2 with
       | Some st => truthy_opt_str ANTHROPIC_API_KEY = true
                    /\ 0 < ThemesOverview.ThemeStats.total st
                    /\ ThemesOverview.ThemeStats.outcomes st
                       = ThemesOverview.ThemeStats.total st
       | None => True
       end.
Proof.
  intros dry_run Hrefl Htrans Hov Hth. unfold ThemesOverview.main. fold dry_run.
  destruct (negb (truthy_opt_str TMDB_API_KEY)); [exists None, None, w; auto|].
  destruct (negb (truthy_opt_str SUPABASE_URL) || negb (truthy_opt_str SUPABASE_KEY));
    [exists None, None, w; auto|].
  destruct (String.eqb (Py.strip choice) "1").
  { destruct (overview_step_spec dry_run w) as [s1 [w1 [H1 P1]]].
    rewrite (bind_returns _ _ _ _ _ H1). exists s1, None, w1.
    split; [reflexivity|]. split; [|auto].
    specialize (Hov w). now rewrite H1 in Hov. }
  destruct (String.eqb (Py.strip choice) "2").
  { destruct (truthy_opt_str ANTHROPIC_API_KEY) eqn:Hkey; cbn [negb];
      [|exists None, None, w; auto].
    destruct (themes_step_spec dry_run w Hkey) as [s2 [w2 [H2 P2]]].
    rewrite (bind_returns _ _ _ _ _ H2). exists None, s2, w2.
    split; [reflexivity|]. split; [|split; [exact I|destruct s2; auto]].
    specialize (Hth eq_refl w). now rewrite H2 in Hth. }
  destruct (String.eqb (Py.strip choice) "3"); [|exists None, None, w; auto].
  destruct (overview_step_spec dry_run w) as [s1 [w1 [H1 P1]]].
  rewrite (bind_returns _ _ _ _ _ H1).
  assert (R1 : R w w1) by (specialize (Hov w); now rewrite H1 in Hov).
  destruct (truthy_opt_str ANTHROPIC_API_KEY) eqn:Hkey.
  - destruct (themes_step_spec dry_run w1 Hkey) as [s2 [w2 [H2 P2]]].
    rewrite (bind_returns _ _ _ _ _ H2). exists s1, s2, w2.
    split; [reflexivity|]. split; [|split; [exact P1|destruct s2; auto]].
    apply (Htrans _ w1); [exact R1|]. specialize (Hth eq_refl w1). now rewrite H2 in Hth.
  - exists s1, None, w1. auto.
Qed.

End ThemesOverviewProgram.

Lemma prompts_select (q : query) : prompts [TableSelect q] = [].
Proof. reflexivity. Qed.

Lemma updates_select (q : query) : updates [TableSelect q] = [].
Proof. reflexivity. Qed.

(** X17: [main] of the themes and overview script never raises, whatever
    is typed and whatever the services answer.  It runs the themes loop only
    with [ANTHROPIC_API_KEY] set, so the early return at the head of
    [backfill_themes] is never taken from [main]: every statistics it
    prints, for the overviews and for the themes, has [total > 0] and
    counters of outcomes that add up to [total]. *)
Theorem themes_main_never_raises (tmdb : string -> http_answer)
    (fails : assignment -> Z -> bool)
    (select : gmap Z row -> query -> result (list row))
    (key url skey akey : option string) (client : string -> completion)
    (choice dry_run_input : string) (w : world) :
  exists s1 s2 w',
    ThemesOverview.main tmdb fails select key url skey akey client choice dry_run_input w
    = (Return (s1, s2), w')
    /\ match s1 with
       | Some st => 0 < ThemesOverview.OverviewStats.total st
                    /\ ThemesOverview.OverviewStats.outcomes st
                       = ThemesOverview.OverviewStats.total st
       | None => True
       end
    /\ match s2 with
       | Some st => truthy_opt_str akey = true
                    /\ 0 < ThemesOverview.ThemeStats.total st
                    /\ ThemesOverview.ThemeStats.outcomes st
                       = ThemesOverview.ThemeStats.total st
       | None => True
       end.
Proof.
  destruct (main_master tmdb fails select key url skey akey client (fun _ _ => True)
              choice dry_run_input w) as [s1 [s2 [w' [H [_ [P1 P2]]]]]]; auto.
  exists s1, s2, w'. auto.
Qed.

(** X18: when the answer to the dry-run prompt is [y] (in either case, with
    blanks around it or not), [main] of the themes and overview script
    leaves the table as it was and sends it no update, under every choice
    and whatever the services answer. *)
Theorem themes_main_dry_run (tmdb : string -> http_answer)
    (fails : assignment -> Z -> bool)
    (select : gmap Z row -> query -> result (list row))
    (key url skey akey : option string) (client : string -> completion)
    (choice dry_run_input : string) (w : world) :
  Py.lower (Py.strip dry_run_input) = "y" ->
  let w' := snd (ThemesOverview.main tmdb fails select key url skey akey client
                   choice dry_run_input w) in
  table w' = table w /\ updates (log w') = updates (log w).
Proof.
  intros Hy.
  destruct (main_master tmdb fails select key url skey akey client
              (fun a b => table b = table a /\ updates (log b) = updates (log a))
              choice dry_run_input w) as [s1 [s2 [w' [H [R _]]]]].
  - auto.
  - intros a b c [H1 H2] [H3 H4]. split; congruence.
  - intros w0. rewrite Hy. change ("y" =? "y")%string with true.
    rewrite overview_step_run. cbv zeta.
    destruct (rows_or_empty _) as [|t rows]; cbn [snd table log];
      rewrite !updates_app, updates_select, ?app_nil_r; [auto|].
    rewrite overview_table_dry.
    destruct (overview_events_quiet tmdb true (t :: rows)) as [_ Hu].
    now rewrite (Hu eq_refl), app_nil_r.
  - intros Hkey w0. rewrite Hy. change ("y" =? "y")%string with true.
    rewrite themes_step_run by exact Hkey. cbv zeta.
    destruct (rows_or_empty _) as [|t rows]; cbn [snd table log];
      rewrite !updates_app, updates_select, ?app_nil_r; [auto|].
    now rewrite themes_table_dry, updates_themes_events_dry, app_nil_r.
  - cbv zeta. rewrite H. exact R.
Qed.

Lemma themes_main_dry_run_witness :
  let w' := snd (ThemesOverview.main Sample.overview_catalogue Sample.refuses_all
                   (fun _ _ => Return [Sample.heat; Sample.drama])
                   (Some "k") (Some "u") (Some "s") (Some "a")
                   (Sample.answers Sample.raw_tags) "3" " Y " Sample.start) in
  table w' = table Sample.start /\ updates (log w') = updates (log Sample.start).
Proof.
  apply themes_main_dry_run. vm_compute; reflexivity.
Defined.

(** X19: without [ANTHROPIC_API_KEY] (unset or empty) [main] of the themes
    and overview script sends no prompt to the text model and prints no
    statistics of themes, under every choice. *)
Theorem themes_main_without_model_key (tmdb : string -> http_answer)
    (fails : assignment -> Z -> bool)
    (select : gmap Z row -> query -> result (list row))
    (key url skey akey : option string) (client : string -> completion)
    (choice dry_run_input : string) (w : world) :
  truthy_opt_str akey = false ->
  exists s1 w',
    ThemesOverview.main tmdb fails select key url skey akey client choice dry_run_input w
    = (Return (s1, None), w')
    /\ prompts (log w') = prompts (log w).
Proof.
  intros Hkey.
  destruct (main_master tmdb fails select key url skey akey client
              (fun a b => prompts (log b) = prompts (log a))
              choice dry_run_input w) as [s1 [s2 [w' [H [R [_ P2]]]]]].
  - auto.
  - intros a b c H1 H2. congruence.
  - intros w0. rewrite overview_step_run. cbv zeta.
    destruct (rows_or_empty _) as [|t rows]; cbn [snd log];
      rewrite !prompts_app, prompts_select, ?app_nil_r; [reflexivity|].
    destruct (overview_events_quiet tmdb
                (Py.lower (Py.strip dry_run_input) =? "y")%string (t :: rows)) as [Hp _].
    now rewrite Hp, app_nil_r.
  - congruence.
  - destruct s2 as [st|]; [destruct P2; congruence|]. now exists s1, w'.
Qed.

Lemma themes_main_without_model_key_witness :
  exists s1 w',
    ThemesOverview.main Sample.overview_catalogue Sample.takes_all
      (fun _ _ => Return [Sample.heat; Sample.drama])
      (Some "k") (Some "u") (Some "s") (Some "")
      (Sample.answers Sample.raw_tags) "3" "n" Sample.start
    = (Return (s1, None), w')
    /\ prompts (log w') = prompts (log Sample.start).
Proof.
  apply themes_main_without_model_key. reflexivity.
Defined.

(** X20: choice 3 is choice 1 followed by choice 2: running [main] of the
    themes and overview script under choice 1 and then, from the world that
    run left and with the same answer to the dry-run prompt, under choice 2,
    ends in the same world as one run under choice 3, and prints the same
    two statistics.  In particular the select of the themes step reads the
    table as the overview step left it. *)
Theorem choice_three_is_one_then_two (tmdb : string -> http_answer)
    (fails : assignment -> Z -> bool)
    (select : gmap Z row -> query -> result (list row))
    (key url skey akey : option string) (client : string -> completion)
    (dry_run_input : string) (w : world) :
  let main := ThemesOverview.main tmdb fails select key url skey akey client in
  let r1 := main "1" dry_run_input w in
  let r2 := main "2" dry_run_input (snd r1) in
  let r3 := main "3" dry_run_input w in
  snd r3 = snd r2
  /\ exists s1 s2,
      fst r1 = Return (s1, None) /\ fst r2 = Return (None, s2) /\ fst r3 = Return (s1, s2).
Proof.
  cbv zeta. unfold ThemesOverview.main.
  destruct (negb (truthy_opt_str key)); [split; [reflexivity|now exists None, None]|].
  destruct (negb (truthy_opt_str url) || negb (truthy_opt_str skey));
    [split; [reflexivity|now exists None, None]|].
  change (Py.strip "1") with "1". change (Py.strip "2") with "2".
  change (Py.strip "3") with "3".
  change ("1" =? "1")%string with true. change ("2" =? "1")%string with false.
  change ("2" =? "2")%string with true. change ("3" =? "1")%string with false.
  change ("3" =? "2")%string with false. change ("3" =? "3")%string with true.
  cbv iota.
  set (dry_run := (Py.lower (Py.strip dry_run_input) =? "y")%string).
  destruct (overview_step_spec tmdb fails select dry_run w) as [s1 [w1 [H1 _]]].
  rewrite !(bind_returns _ _ _ _ _ H1). cbn [snd ret].
  destruct (truthy_opt_str akey) eqn:Hkey; cbn [negb].
  - destruct (themes_step_spec fails select akey client dry_run w1 Hkey) as [s2 [w2 [H2 _]]].
    rewrite !(bind_returns _ _ _ _ _ H2).
    split; [reflexivity|]. now exists s1, s2.
  - split; [reflexivity|]. now exists s1, None.
Qed.

Lemma overview_table_frame_both (tmdb : string -> http_answer)
    (fails : assignment -> Z -> bool) (dry_run : bool) (t : row) (tb : gmap Z row) :
  (fun r => without_overview (without_themes r))
    <$> ThemesOverview.overview_table tmdb fails dry_run t tb
  = (fun r => without_overview (without_themes r)) <$> tb.
Proof.
  unfold ThemesOverview.overview_table.
  destruct (ThemesOverview.fetched tmdb t) as [[|c ov]|]; try reflexivity.
  destruct (dry_run || _); [reflexivity|]. now apply alter_frame.
Qed.

Lemma themes_table_frame_both (fails : assignment -> Z -> bool)
    (claude : option (string -> completion)) (dry_run : bool) (t : row) (tb : gmap Z row) :
  (fun r => without_overview (without_themes r))
    <$> ThemesOverview.themes_table fails claude dry_run t tb
  = (fun r => without_overview (without_themes r)) <$> tb.
Proof.
  unfold ThemesOverview.themes_table.
  destruct (negb (truthy_opt_str (overview t))); [reflexivity|].
  destruct (ThemesOverview.generated claude t) as [[|th ths]|]; try reflexivity.
  destruct (dry_run || _); [reflexivity|]. now apply alter_frame.
Qed.

(** X21: whatever is typed and whatever the services answer, [main] of the
    themes and overview script adds no row to the table, removes none and
    changes no column but [overview] and [themes]: with these two columns
    blanked, the table after [main] is the table before it.  The keywords
    that the other script stored are never touched. *)
Theorem themes_main_touches_two_columns_only (tmdb : string -> http_answer)
    (fails : assignment -> Z -> bool)
    (select : gmap Z row -> query -> result (list row))
    (key url skey akey : option string) (client : string -> completion)
    (choice dry_run_input : string) (w : world) :
  (fun r => without_overview (without_themes r))
    <$> table (snd (ThemesOverview.main tmdb fails select key url skey akey client
                      choice dry_run_input w))
  = (fun r => without_overview (without_themes r)) <$> table w.
Proof.
  destruct (main_master tmdb fails select key url skey akey client
              (fun a b => (fun r => without_overview (without_themes r)) <$> table b
                          = (fun r => without_overview (without_themes r)) <$> table a)
              choice dry_run_input w) as [s1 [s2 [w' [H [R _]]]]].
  - auto.
  - intros a b c H1 H2. congruence.
  - intros w0. rewrite overview_step_run. cbv zeta.
    destruct (rows_or_empty _) as [|t rows]; cbn [snd table]; [reflexivity|].
    apply (foldl_frame (ThemesOverview.overview_table tmdb fails _)).
    intros. apply overview_table_frame_both.
  - intros Hkey w0. rewrite themes_step_run by exact Hkey. cbv zeta.
    destruct (rows_or_empty _) as [|t rows]; cbn [snd table]; [reflexivity|].
    apply (foldl_frame (ThemesOverview.themes_table fails _ _)).
    intros. apply themes_table_frame_both.
  - rewrite H. exact R.
Qed.

(** ** The themes loop and its generator *)

(** X22: what [generate_themes_with_claude] does, for every client and
    every row: without a client, or with genres that are null, it returns
    [None] and calls nothing; otherwise it sends exactly one prompt, built
    from the title, the overview and the genres joined by [/], and returns
    the accepted tags of the first block of the answer, or [None] when the
    call fails, the answer has no block or no tag is accepted. *)
Theorem generate_themes_result (claude : option (string -> completion))
    (title overview : string) (genres : option (list string)) (w : world) :
  ThemesOverview.generate_themes_with_claude claude title overview genres w
  = match claude, genres with
    | Some client, Some g =>
        let prompt := ThemesOverview.prompt_of title overview (Py.join "/" g) in
        (Return match client prompt with
                | Message (text :: _) => ThemesOverview.accepted_themes text
                | _ => None
                end,
         World (table w) (log w ++ [MessagesCreate prompt]))
    | _, _ => (Return None, w)
    end.
Proof.
  unfold ThemesOverview.generate_themes_with_claude.
  destruct claude as [client|]; [|now destruct genres].
  destruct genres as [g|]; [|reflexivity]. cbv zeta.
  unfold try_except, bind, lift, ThemesOverview.join_genres, ThemesOverview.messages_create,
    emit, raise, ret; simpl.
  destruct (client _) as [|[|text rest]]; reflexivity.
Qed.

Lemma prompts_themes_events (client : string -> completion) (dry_run : bool) (t : row) :
  prompts (ThemesOverview.themes_events (Some client) dry_run t)
  = if ThemesOverview.promptable t
    then [ThemesOverview.prompt_of (title t) (default "" (overview t))
            (Py.join "/" (default [] (genres t)))]
    else [].
Proof.
  unfold ThemesOverview.themes_events, ThemesOverview.promptable.
  destruct (truthy_opt_str (overview t)); cbn [negb andb]; [|reflexivity].
  rewrite prompts_app.
  match goal with
  | |- prompts _ ++ prompts ?tail = _ => assert (Hq : prompts tail = [])
  end.
  { destruct (ThemesOverview.generated (Some client) t) as [[|th ths]|]; try reflexivity.
    now destruct dry_run. }
  rewrite Hq, app_nil_r. unfold ThemesOverview.prompt_for, ThemesOverview.join_genres.
  destruct (genres t) as [g|]; [rewrite bool_decide_eq_true_2 by eauto; reflexivity|].
  rewrite bool_decide_eq_false_2 by (intros [? [=]]). reflexivity.
Qed.

Lemma tally_no_overview (fails : assignment -> Z -> bool)
    (claude : option (string -> completion)) (dry_run : bool) (titles : list row)
    (st : ThemesOverview.ThemeStats.t) :
  ThemesOverview.ThemeStats.no_overview
    (foldl (fun s t => ThemesOverview.count_themes
                         (ThemesOverview.themes_outcome fails claude dry_run t) s) st titles)
  = ThemesOverview.ThemeStats.no_overview st
    + length (List.filter (fun t => negb (truthy_opt_str (overview t))) titles).
Proof.
  revert st. induction titles as [|t titles IH]; intros st; cbn [foldl List.filter];
    [cbn; lia|].
  rewrite IH. unfold ThemesOverview.themes_outcome.
  destruct (negb (truthy_opt_str (overview t))); cbn; [lia|].
  destruct (ThemesOverview.generated claude t) as [[|th ths]|]; cbn; try lia.
  destruct (negb dry_run && _); cbn; lia.
Qed.

(** X23: with a client, a run of [backfill_themes] sends one prompt for
    each row that has an overview and genres, in the order of the batch, and
    none for any other row; and it counts under [no_overview] exactly the
    rows whose overview is null or empty, whatever the model answers. *)
Theorem themes_prompts_and_skips (fails : assignment -> Z -> bool)
    (client : string -> completion) (titles : list row) (dry_run : bool) (w : world) :
  exists st w',
    ThemesOverview.backfill_themes fails (Some client) titles dry_run true w = (Return st, w')
    /\ prompts (log w')
       = prompts (log w)
         ++ map (fun t => ThemesOverview.prompt_of (title t) (default "" (overview t))
                            (Py.join "/" (default [] (genres t))))
                (List.filter ThemesOverview.promptable titles)
    /\ ThemesOverview.ThemeStats.no_overview st
       = length (List.filter (fun t => negb (truthy_opt_str (overview t))) titles).
Proof.
  rewrite backfill_themes_run.
  unfold ThemesOverview.themes_enabled. cbn [andb].
  rewrite bool_decide_eq_true_2 by eauto.
  do 2 eexists. split; [reflexivity|]. cbn [log]. split.
  - rewrite prompts_app. f_equal.
    induction titles as [|t titles IH]; [reflexivity|].
    cbn [flat_map List.filter]. rewrite prompts_app, prompts_themes_events, IH.
    now destruct (ThemesOverview.promptable t).
  - now rewrite tally_no_overview.
Qed.

(** ** The overview loop and the counters of the keywords loop *)

(** X24: for every batch and whatever the catalogue and the table answer,
    [backfill_overviews] returns its statistics, having sent exactly one
    request per row, for the address of that row, in the order of the batch:
    no row is skipped, asked twice or asked out of turn, whichever fetches
    and updates failed. *)
Theorem overviews_one_request_per_row (tmdb : string -> http_answer)
    (fails : assignment -> Z -> bool) (titles : list row) (dry_run : bool) (w : world) :
  exists st w',
    ThemesOverview.backfill_overviews tmdb fails titles dry_run w = (Return st, w')
    /\ urls (log w')
       = urls (log w) ++ map (fun t => ThemesOverview.overview_url (id t) (kind t)) titles.
Proof.
  rewrite backfill_overviews_run. do 2 eexists. split; [reflexivity|]. cbn [log].
  rewrite urls_app. f_equal.
  induction titles as [|t titles IH]; [reflexivity|].
  cbn [flat_map map]. rewrite urls_app, IH. f_equal.
  unfold ThemesOverview.overview_events.
  destruct (ThemesOverview.fetched tmdb t) as [[|c ov]|]; try reflexivity.
  now destruct dry_run.
Qed.

Lemma tally_counters (tmdb : string -> http_answer) (fails : assignment -> Z -> bool)
    (dry_run : bool) (titles : list row) (st : Keywords.stats) :
  let st' := foldl (fun s t => Keywords.count (Keywords.outcome_of tmdb fails dry_run t) s)
                   st titles in
  Keywords.api_error st'
  = Keywords.api_error st
    + length (List.filter (fun t => negb (Keywords.enrichable tmdb t)) titles)
  /\ Keywords.success st'
     = Keywords.success st
       + length (List.filter (fun t => Keywords.enrichable tmdb t
                                       && (dry_run || negb (Keywords.refused tmdb fails t)))
                             titles)
  /\ Keywords.db_error st'
     = Keywords.db_error st
       + length (List.filter (fun t => Keywords.enrichable tmdb t && negb dry_run
                                       && Keywords.refused tmdb fails t) titles).
Proof.
  cbv zeta. revert st. induction titles as [|t titles IH]; intros st; cbn [foldl List.filter].
  - cbn. lia.
  - destruct (IH (Keywords.count (Keywords.outcome_of tmdb fails dry_run t) st))
      as [-> [-> ->]].
    unfold Keywords.outcome_of, Keywords.enrichable, Keywords.refused.
    pose proof (fetched_not_empty tmdb t) as Hne.
    destruct (Keywords.fetched tmdb t) as [[|k ks]|]; [congruence| |cbn; lia].
    destruct dry_run; cbn; [lia|].
    destruct (fails _ _); cbn; lia.
Qed.

(** X25: what the counters of [backfill_keywords_batch] count, for every
    batch and every answer of the services: [api_error] the rows whose fetch
    returned no keywords (failed request, missing key, empty or unreadable
    list alike); [db_error] the rows with keywords whose update the table
    refused, in a run that is not dry; [success] the other rows with
    keywords. *)
Theorem keywords_counters_count (tmdb : string -> http_answer)
    (fails : assignment -> Z -> bool) (titles : list row) (dry_run : bool) (w : world) :
  exists st w',
    Keywords.backfill_keywords_batch tmdb fails titles dry_run w = (Return st, w')
    /\ Keywords.api_error st
       = length (List.filter (fun t => negb (Keywords.enrichable tmdb t)) titles)
    /\ Keywords.success st
       = length (List.filter (fun t => Keywords.enrichable tmdb t
                                       && (dry_run || negb (Keywords.refused tmdb fails t)))
                             titles)
    /\ Keywords.db_error st
       = length (List.filter (fun t => Keywords.enrichable tmdb t && negb dry_run
                                       && Keywords.refused tmdb fails t) titles).
Proof.
  rewrite backfill_keywords_batch_run. do 2 eexists. split; [reflexivity|].
  destruct (tally_counters tmdb fails dry_run titles (Keywords.Stats (length titles) 0 0 0 0))
    as [-> [-> ->]].
  repeat split.
Qed.
